(** * sync.py: Mendeley <-> reMarkable folder synchronisation

    A shallow embedding of [src/sync.py] and the properties of its
    identity codec ([to_filename], the [mfiles] keys), of the three-way
    reconciliation computed in [main] and of the three executor passes. *)

From Stdlib Require Import String Ascii List ZArith Lia Bool.
From stdpp Require Import base list gmap strings.

Import ListNotations.
Local Open Scope list_scope.
Local Open Scope string_scope.

(** ** Python strings

    A Python [str] is modelled as a Rocq [string], one character per
    position.  Only the operations the script uses are embedded. *)

Module PyStr.

(** [needle in hay] for two strings: some suffix of [hay] starts with
    [needle]. *)
Fixpoint contains (needle hay : string) : bool :=
  String.prefix needle hay ||
  match hay with
  | EmptyString => false
  | String _ rest => contains needle rest
  end.

(** [s.replace(old, new)] with a non-empty [old]: a left-to-right scan
    replacing non-overlapping occurrences.  [skip] counts the characters
    of the occurrence just replaced that are still to be dropped. *)
Fixpoint replace_scan (old new : string) (skip : nat) (s : string) : string :=
  match s with
  | EmptyString => EmptyString
  | String c rest =>
      match skip with
      | S k => replace_scan old new k rest
      | O =>
          if String.prefix old s
          then new ++ replace_scan old new (String.length old - 1) rest
          else String c (replace_scan old new 0 rest)
      end
  end.

(** [s.replace(old, new)] with an empty [old]: [new] is put before every
    character and at the end. *)
Fixpoint replace_empty (new s : string) : string :=
  match s with
  | EmptyString => new
  | String c rest => new ++ String c (replace_empty new rest)
  end.

Definition replace (old new s : string) : string :=
  match old with
  | EmptyString => replace_empty new s
  | String _ _ => replace_scan old new 0 s
  end.

(** [sep.join(parts)]. *)
Fixpoint join (sep : string) (parts : list string) : string :=
  match parts with
  | [] => EmptyString
  | [p] => p
  | p :: ps => p ++ sep ++ join sep ps
  end.

(** [s.split(sep)] for a one-character [sep]: every occurrence cuts, and
    the result always has at least one field.  [cur] is the field being
    read, in reverse. *)
Fixpoint split_scan (sep : ascii) (cur : list ascii) (s : string) : list string :=
  match s with
  | EmptyString => [string_of_list_ascii (rev cur)]
  | String c rest =>
      if Ascii.eqb c sep
      then string_of_list_ascii (rev cur) :: split_scan sep [] rest
      else split_scan sep (c :: cur) rest
  end.

Definition split (sep : ascii) (s : string) : list string := split_scan sep [] s.

(** [x in l] for a list of strings. *)
Fixpoint mem (x : string) (l : list string) : bool :=
  match l with
  | [] => false
  | y :: l' => String.eqb x y || mem x l'
  end.

End PyStr.

(** ** The identity codec *)

(** [to_filename(text, nospaces=False)], lines 235-239. *)
Definition to_filename (text : string) (nospaces : bool) : string :=
  let text := PyStr.replace "." EmptyString text in
  text.

(** The key of line 257: ["{}---{}".format(to_filename(m.title), m.id)]. *)
Definition canonicalize (title id : string) : string :=
  to_filename title false ++ "---" ++ id.

(** ** Python dictionaries

    A [dict] keeps its keys in insertion order; storing under a key that is
    already present overwrites the value and leaves the key where it is. *)

Module PyDict.

Definition t (V : Type) : Type := list (string * V).

Fixpoint set {V} (k : string) (v : V) (d : t V) : t V :=
  match d with
  | [] => [(k, v)]
  | (k', v') :: d' =>
      if String.eqb k' k then (k', v) :: d' else (k', v') :: set k v d'
  end.

Fixpoint get {V} (k : string) (d : t V) : option V :=
  match d with
  | [] => None
  | (k', v') :: d' => if String.eqb k' k then Some v' else get k d'
  end.

Definition keys {V} (d : t V) : list string := map fst d.

Definition values {V} (d : t V) : list V := map snd d.

(** [k in d.keys()]. *)
Definition has_key {V} (k : string) (d : t V) : bool := PyStr.mem k (keys d).

(** [{k: v for (k, v) in pairs}]. *)
Definition of_pairs {V} (pairs : list (string * V)) : t V :=
  fold_left (fun d kv => set (fst kv) (snd kv) d) pairs [].

End PyDict.

(** ** Mendeley documents *)

Record Document := { doc_id : string; doc_title : string }.

(** [enumerate(l)], counting from [n]. *)
Fixpoint enumerate_from {A} (n : nat) (l : list A) : list (nat * A) :=
  match l with
  | [] => []
  | x :: l' => (n, x) :: enumerate_from (S n) l'
  end.

Definition enumerate {A} (l : list A) : list (nat * A) := enumerate_from 0 l.

Definition doc_key (m : Document) : string := canonicalize (doc_title m) (doc_id m).

(** [mfiles], lines 257-258. *)
Definition mfiles (mdocuments : list Document) : PyDict.t nat :=
  PyDict.of_pairs (map (fun im => (doc_key (snd im), fst im)) (enumerate mdocuments)).

(** ** The three-way diff, lines 272-274 *)

Definition m_and_r (mfiles : PyDict.t nat) (rfiles : list string) : list string :=
  List.filter (fun f => PyStr.mem f rfiles) (PyDict.keys mfiles).

Definition m_minus_r (mfiles : PyDict.t nat) (rfiles : list string) : list string :=
  List.filter (fun f => negb (PyStr.mem f rfiles)) (PyDict.keys mfiles).

Definition r_minus_m (mfiles : PyDict.t nat) (rfiles : list string) : list string :=
  List.filter (fun f => negb (PyDict.has_key f mfiles)) rfiles.

(** ** Exceptions and results

    Every exception the script can meet is an instance of [Exception]
    (the handler of line 286 catches that class), and the only thing the
    script ever inspects is [str(ex)]. *)

Record exn := Exception { exn_str : string }.

Inductive result (A : Type) : Type :=
| Ok (a : A)
| Raise (ex : exn).
Arguments Ok {A} a.
Arguments Raise {A} ex.

(** ** The outside world *)

Record Folder := { folder_id : string; folder_name : string; folder_parent : option string }.

(** A file attached to a Mendeley document. *)
Record MFile := { file_id : string }.

(** What [subprocess.Popen(args, ...)], [wait()] and the two [read()]s of
    [RmApi._run] give: exit status, stdout and stderr. *)
Record Completed := { returncode : Z; stdout : string; stderr : string }.

(** The calls that leave the script, each with what it answered. *)
Inductive event : Type :=
| EvGetSession (r : result unit)
| EvGetFolders (r : result (list Folder))
| EvDocuments (f : Folder) (r : result (list Document))
| EvPopen (args : list string) (r : result Completed)
| EvPathExists (path : string) (r : bool)
| EvMove (src dst : string) (r : result string)
| EvOsRemove (path : string) (r : result unit)
| EvMakedirs (path : string) (r : result unit)
| EvUuid4 (hex : string)
| EvFilesIter (m : Document) (r : result (list MFile))
| EvFileDelete (f : MFile) (r : result unit)
| EvFileDownload (f : MFile) (dir : string) (r : result string)
| EvAttachFile (m : Document) (path : string) (r : result unit)
| EvPrint (line : string).

(** The host: the Mendeley client, the [rmapi] process, the local file
    system and the Python runtime, over a state [W] of its own.  The
    paginated listings [get_session], [Folder.get_folders] and
    [Folder.documents] (lines 117-183) are taken at this boundary, and
    [mdoc.files.iter()] as the list it enumerates. *)
Class Host (W : Type) : Type := {
  get_session : W -> W * result unit;
  get_folders : W -> W * result (list Folder);
  folder_documents : Folder -> W -> W * result (list Document);
  popen : list string -> W -> W * result Completed;
  os_path_exists : string -> W -> W * bool;
  shutil_move : string -> string -> W -> W * result string;
  os_remove : string -> W -> W * result unit;
  os_makedirs : string -> W -> W * result unit;
  uuid4_hex : W -> W * string;
  files_iter : Document -> W -> W * result (list MFile);
  file_delete : MFile -> W -> W * result unit;
  file_download : MFile -> string -> W -> W * result string;
  attach_file : Document -> string -> W -> W * result unit;
  (* pure renderings of the runtime *)
  decode_utf8 : string -> result string;
  repr_str : string -> string;
  repr_tuple : list string -> string;
  repr_bytes : string -> string;
  str_file : MFile -> string
}.

(** ** The monad of the script: host state, exceptions and the calls made *)

Record outcome (W A : Type) : Type :=
  Outcome { res : result A; world : W; trace : list event }.
Arguments Outcome {W A} res world trace.
Arguments res {W A} o.
Arguments world {W A} o.
Arguments trace {W A} o.

Definition M (W A : Type) : Type := W -> outcome W A.

Definition ret {W A} (a : A) : M W A := fun w => Outcome (Ok a) w [].

Definition raise {W A} (ex : exn) : M W A := fun w => Outcome (Raise ex) w [].

Definition bind {W A B} (m : M W A) (f : A -> M W B) : M W B :=
  fun w =>
    match m w with
    | Outcome (Ok a) w1 t1 =>
        match f a w1 with
        | Outcome r w2 t2 => Outcome r w2 (t1 ++ t2)%list
        end
    | Outcome (Raise ex) w1 t1 => Outcome (Raise ex) w1 t1
    end.

(** [try: m except Exception as ex: ...], with the handler left to the
    caller. *)
Definition attempt {W A} (m : M W A) : M W (result A) :=
  fun w =>
    match m w with
    | Outcome r w1 t1 => Outcome (Ok r) w1 t1
    end.

(** A host call that may raise. *)
Definition call {W A} (op : W -> W * result A) (ev : result A -> event) : M W A :=
  fun w => let (w', r) := op w in Outcome r w' [ev r].

(** A host call that cannot. *)
Definition ask {W A} (op : W -> W * A) (ev : A -> event) : M W A :=
  fun w => let (w', a) := op w in Outcome (Ok a) w' [ev a].

(** [print(a, b, ...)]. *)
Definition print {W} (args : list string) : M W unit :=
  fun w => Outcome (Ok tt) w [EvPrint (PyStr.join " " args)].

Declare Scope sync_scope.
Delimit Scope sync_scope with sync.
Notation "x <- m ;; k" := (bind m (fun x => k))
  (at level 100, m at next level, right associativity) : sync_scope.
Notation "m ;;; k" := (bind m (fun _ => k))
  (at level 100, right associativity) : sync_scope.
Local Open Scope sync_scope.

(** [for x in l: body(x)]. *)
Fixpoint for_each {W A} (l : list A) (body : A -> M W unit) : M W unit :=
  match l with
  | [] => ret tt
  | x :: l' => body x ;;; for_each l' body
  end.

(** [l[i]]. *)
Definition list_getitem {W A} (l : list A) (i : nat) : M W A :=
  match l !! i with
  | Some x => ret x
  | None => raise (Exception "list index out of range")
  end.

(** [d[k]]. *)
Definition dict_getitem {W} `{Host W} {V} (d : PyDict.t V) (k : string) : M W V :=
  match PyDict.get k d with
  | Some v => ret v
  | None => raise (Exception (repr_str k))
  end.

(** ** Constants, lines 63-64 *)

Definition REMARKABLE_FOLDER_IN_MENDELEY : string := "Remarkable".
Definition MENDELEY_FOLDER_IN_REMARKABLE : string := "Mendeley".

(** ** [class RmApi], lines 187-232 *)

Section Script.

Context {W : Type} `{Host W}.

(** [RmApi.__init__]: the object is its [path]. *)
Definition RmApi (exec_path : string) : string := exec_path.

Definition RmApi_default : string := RmApi "./rmapi".

(** [RmApi._run], given its arguments as a list. *)
Definition RmApi_run (self : string) (args : list string) : M W string :=
  let args := self :: args in
  p <- call (popen args) (EvPopen args) ;;
  if negb (returncode p =? 0)%Z
  then raise (Exception ("RmAPI " ++ repr_tuple args
                         ++ " command failed: " ++ repr_bytes (stderr p)))
  else ret (stdout p).

(** [not parent] for an optional string. *)
Definition falsy (parent : option string) : bool :=
  match parent with
  | None => true
  | Some s => String.eqb s EmptyString
  end.

(** [[e[1] for e in entries if e[0] == tag]]; indexing past the end of a
    row raises [IndexError]. *)
Fixpoint select_entries (tag : string) (entries : list (list string)) : result (list string) :=
  match entries with
  | [] => Ok []
  | e :: es =>
      match e with
      | [] => Raise (Exception "list index out of range")
      | e0 :: tl =>
          if String.eqb e0 tag
          then match tl with
               | [] => Raise (Exception "list index out of range")
               | e1 :: _ =>
                   match select_entries tag es with
                   | Ok l => Ok (e1 :: l)
                   | Raise ex => Raise ex
                   end
               end
          else select_entries tag es
      end
  end.

Definition lift {A} (r : result A) : M W A :=
  match r with
  | Ok a => ret a
  | Raise ex => raise ex
  end.

Definition newline : ascii := "010"%char.
Definition tab : ascii := "009"%char.

(** The body shared by [subfolders] and [files]. *)
Definition RmApi_ls (self : string) (parent : option string) (tag : string) : M W (list string) :=
  out <- (if falsy parent then RmApi_run self ["ls"]
          else RmApi_run self ["ls"; default EmptyString parent]) ;;
  text <- lift (decode_utf8 out) ;;
  let entries := PyStr.split newline text in
  let entries := map (PyStr.split tab) entries in
  lift (select_entries tag entries).

Definition RmApi_subfolders (self : string) (parent : option string) : M W (list string) :=
  RmApi_ls self parent "[d]".

Definition RmApi_files (self : string) (parent : option string) : M W (list string) :=
  RmApi_ls self parent "[f]".

Definition RmApi_download (self : string) (rfolder rfile outpath : string) : M W unit :=
  let rpath := rfolder ++ "/" ++ rfile in
  out <- RmApi_run self ["geta"; "-a"; rpath] ;;
  let localpath := rfile ++ "-annotations.pdf" in
  found <- ask (os_path_exists localpath) (EvPathExists localpath) ;;
  (if negb found
   then raise (Exception ("File not downloaded from remarkable cloud: " ++ rpath))
   else ret tt) ;;;
  call (shutil_move localpath outpath) (EvMove localpath outpath) ;;;
  call (os_remove (rfile ++ ".zip")) (EvOsRemove (rfile ++ ".zip")).

Definition RmApi_upload (self : string) (inpath rfolder : string) : M W unit :=
  RmApi_run self ["put"; inpath; rfolder] ;;; ret tt.

Definition RmApi_remove (self : string) (rfolder rfile : string) : M W unit :=
  let rpath := rfolder ++ "/" ++ rfile in
  RmApi_run self ["rm"; rpath] ;;; ret tt.

(** ** [main], lines 243-334 *)

(** [mdocuments[mfiles[doc]]]. *)
Definition lookup_mdoc (mdocuments : list Document) (mfiles : PyDict.t nat) (doc : string)
  : M W Document :=
  idx <- dict_getitem mfiles doc ;;
  list_getitem mdocuments idx.

(** The [try] block of lines 283-285. *)
Definition download_annotated (rmapi : string) (doc : string) : M W string :=
  hex <- ask uuid4_hex EvUuid4 ;;
  let localpath := hex ++ ".pdf" in
  RmApi_download rmapi MENDELEY_FOLDER_IN_REMARKABLE doc localpath ;;;
  ret localpath.

(** Lines 292-297: the attachments of [mdoc] are replaced by the export. *)
Definition replace_attachments (mdoc : Document) (localpath doc : string) : M W unit :=
  files <- call (files_iter mdoc) (EvFilesIter mdoc) ;;
  for_each files (fun file_ => call (file_delete file_) (EvFileDelete file_)) ;;;
  call (attach_file mdoc localpath) (EvAttachFile mdoc localpath) ;;;
  call (os_remove localpath) (EvOsRemove localpath) ;;;
  print ["Document synced: " ++ doc].

(** One turn of the loop of lines 280-297. *)
Definition sync_existing (rmapi : string) (mdocuments : list Document) (mfiles : PyDict.t nat)
    (doc : string) : M W unit :=
  mdoc <- lookup_mdoc mdocuments mfiles doc ;;
  r <- attempt (download_annotated rmapi doc) ;;
  match r with
  | Raise ex =>
      if PyStr.contains "Failed to generate annotations" (exn_str ex)
      then print ["Document skipped: " ++ doc ++ ". No annotations yet!"]
      else raise ex
  | Ok localpath => replace_attachments mdoc localpath doc
  end.

(** The inner loop of lines 304-308: only the first file is fetched. *)
Definition first_attachment (files : list MFile) : M W (option string) :=
  match files with
  | [] => ret None
  | file_ :: _ =>
      print [str_file file_] ;;;
      path <- call (file_download file_ ".") (EvFileDownload file_ ".") ;;
      ret (Some path)
  end.

(** [not path] for [None] or a string. *)
Definition no_path (path : option string) : bool := falsy path.

(** Lines 304-316: the first attachment of [mdoc] goes to the tablet. *)
Definition push_attachment (rmapi : string) (mdoc : Document) (doc : string) : M W unit :=
  files <- call (files_iter mdoc) (EvFilesIter mdoc) ;;
  path <- first_attachment files ;;
  if no_path path
  then print ["WARNING! no files attached for document: " ++ doc_title mdoc]
  else
    let properpath := doc ++ ".pdf" in
    let path := default EmptyString path in
    call (shutil_move path properpath) (EvMove path properpath) ;;;
    RmApi_upload rmapi properpath MENDELEY_FOLDER_IN_REMARKABLE ;;;
    call (os_remove properpath) (EvOsRemove properpath) ;;;
    print ["Document added: " ++ doc].

(** One turn of the loop of lines 302-316. *)
Definition push_new (rmapi : string) (mdocuments : list Document) (mfiles : PyDict.t nat)
    (doc : string) : M W unit :=
  mdoc <- lookup_mdoc mdocuments mfiles doc ;;
  push_attachment rmapi mdoc doc.

Definition trash : string := "trash".

(** One turn of the loop of lines 324-332. *)
Definition delete_stale (rmapi : string) (doc : string) : M W unit :=
  let localpath := doc ++ ".pdf" in
  let trashpath := trash ++ "/" ++ localpath in
  RmApi_download rmapi MENDELEY_FOLDER_IN_REMARKABLE doc localpath ;;;
  call (shutil_move localpath trashpath) (EvMove localpath trashpath) ;;;
  RmApi_remove rmapi MENDELEY_FOLDER_IN_REMARKABLE doc ;;;
  print ["Document removed: " ++ doc].

(** Line 323. *)
Definition ensure_trash : M W unit :=
  found <- ask (os_path_exists trash) (EvPathExists trash) ;;
  if negb found then call (os_makedirs trash) (EvMakedirs trash) else ret tt.

(** The three passes, lines 280-332. *)
Definition sync_pass (rmapi : string) (mdocuments : list Document) (mfiles : PyDict.t nat)
    (keys : list string) : M W unit :=
  for_each keys (sync_existing rmapi mdocuments mfiles).

Definition push_pass (rmapi : string) (mdocuments : list Document) (mfiles : PyDict.t nat)
    (keys : list string) : M W unit :=
  for_each keys (push_new rmapi mdocuments mfiles).

Definition delete_pass (rmapi : string) (keys : list string) : M W unit :=
  ensure_trash ;;;
  for_each keys (delete_stale rmapi).

(** [next(filter(lambda f: f.name == name, folders), None)]. *)
Definition find_folder (name : string) (folders : list Folder) : option Folder :=
  List.find (fun f => String.eqb (folder_name f) name) folders.

Definition main : M W unit :=
  session <- call get_session EvGetSession ;;
  folders <- call get_folders EvGetFolders ;;
  match find_folder REMARKABLE_FOLDER_IN_MENDELEY folders with
  | None =>
      print ["Cannot find '{}' folder in mendeley. "
               ++ String newline "Here's the flattened list of folders: {}";
             REMARKABLE_FOLDER_IN_MENDELEY;
             PyStr.join ", " (map folder_name folders)] ;;;
      raise (Exception "Cannot find remarkable folder in mendeley!")
  | Some mfolder =>
      mdocuments <- call (folder_documents mfolder) (EvDocuments mfolder) ;;
      let mfiles := mfiles mdocuments in
      let rmapi := RmApi_default in
      topfolders <- RmApi_subfolders rmapi None ;;
      if negb (PyStr.mem MENDELEY_FOLDER_IN_REMARKABLE topfolders)
      then
        print ["Cannot find '" ++ MENDELEY_FOLDER_IN_REMARKABLE
                 ++ "' root-level folder in remarkable."] ;;;
        print ["Create it if it does not exist, I won't."
                 ++ String newline "Current top-level folders: ";
               PyStr.join ", " topfolders] ;;;
        raise (Exception "Cannot find mendeley folder in remarkable!")
      else
        rfiles <- RmApi_files rmapi (Some MENDELEY_FOLDER_IN_REMARKABLE) ;;
        let m_and_r := m_and_r mfiles rfiles in
        let m_minus_r := m_minus_r mfiles rfiles in
        let r_minus_m := r_minus_m mfiles rfiles in
        sync_pass rmapi mdocuments mfiles m_and_r ;;;
        push_pass rmapi mdocuments mfiles m_minus_r ;;;
        delete_pass rmapi r_minus_m ;;;
        print ["Sync complete! Refresh your mendeley and remarkable apps."]
  end.

End Script.

(** ** Reading the keys *)

(** The key set of a list of keys. *)
Definition key_set (l : list string) : gset string := list_to_set l.

(** [idx] is the last place of [mdocuments] whose document has key [k]. *)
Definition last_with_key (mdocuments : list Document) (k : string) (idx : nat) : Prop :=
  (exists m, mdocuments !! idx = Some m /\ doc_key m = k)
  /\ forall j m', mdocuments !! j = Some m' -> doc_key m' = k -> j <= idx.

(** ** Reading a trace *)

(** A call that changes nothing on either side: the listings and the
    progress lines. *)
Definition read_only (e : event) : bool :=
  match e with
  | EvGetSession _ | EvGetFolders _ | EvDocuments _ _ | EvPrint _ => true
  | EvPopen (_ :: cmd :: _) _ => String.eqb cmd "ls"
  | _ => false
  end.

(** A call that changes the attachments of a Mendeley document. *)
Definition touches_attachments (e : event) : bool :=
  match e with
  | EvFileDelete _ _ | EvAttachFile _ _ _ => true
  | _ => false
  end.

(** A step of [RmApi.download] or a [shutil.move] that did not go through:
    the call raised, [rmapi] exited with a non-zero status, or the exported
    file is not there. *)
Definition failed (e : event) : bool :=
  match e with
  | EvPopen _ (Raise _) | EvMove _ _ (Raise _) | EvOsRemove _ (Raise _) => true
  | EvPopen _ (Ok p) => negb (returncode p =? 0)%Z
  | EvPathExists _ found => negb found
  | _ => false
  end.

(** The five calls of a backup that went through, lines 326-329: the
    annotated export of [doc], its move to [doc.pdf], the removal of the
    zip, and the move into the trash directory. *)
Definition backup_done (rmapi doc : string) (p : Completed) (d1 d2 : string) : list event :=
  [ EvPopen [rmapi; "geta"; "-a"; MENDELEY_FOLDER_IN_REMARKABLE ++ "/" ++ doc] (Ok p);
    EvPathExists (doc ++ "-annotations.pdf") true;
    EvMove (doc ++ "-annotations.pdf") (doc ++ ".pdf") (Ok d1);
    EvOsRemove (doc ++ ".zip") (Ok tt);
    EvMove (doc ++ ".pdf") (trash ++ "/" ++ doc ++ ".pdf") (Ok d2) ].

(** Every [rm] sent to the tablet comes right after the completed backup
    of the same key. *)
Definition rm_guarded (rmapi : string) (tr : list event) : Prop :=
  forall pre post rest r,
    tr = (pre ++ EvPopen (rmapi :: "rm" :: rest) r :: post)%list ->
    exists doc pre' p d1 d2,
      rest = [MENDELEY_FOLDER_IN_REMARKABLE ++ "/" ++ doc]
      /\ returncode p = 0%Z
      /\ pre = (pre' ++ backup_done rmapi doc p d1 d2)%list.

(** Nothing follows a failed step. *)
Definition stops_at_failure (tr : list event) : Prop :=
  forall pre e post, tr = (pre ++ e :: post)%list -> failed e = true -> post = [].

(** An [rm] sent to the tablet. *)
Definition is_rm (e : event) : bool :=
  match e with
  | EvPopen (_ :: cmd :: _) _ => String.eqb cmd "rm"
  | _ => false
  end.

(** The download/backup step of a target-only key, lines 326-329. *)
Definition backup {W} `{Host W} (rmapi doc : string) : M W string :=
  (RmApi_download rmapi MENDELEY_FOLDER_IN_REMARKABLE doc (doc ++ ".pdf") ;;;
   call (shutil_move (doc ++ ".pdf") (trash ++ "/" ++ doc ++ ".pdf"))
        (EvMove (doc ++ ".pdf") (trash ++ "/" ++ doc ++ ".pdf")))%sync.

(** The configured folder is missing in Mendeley (line 250) or on the
    tablet (line 263), every listing having answered. *)
Definition source_folder_missing {W} `{Host W} (w : W) : Prop :=
  exists w1 w2 folders,
    get_session w = (w1, Ok tt)
    /\ get_folders w1 = (w2, Ok folders)
    /\ find_folder REMARKABLE_FOLDER_IN_MENDELEY folders = None.

Definition target_folder_missing {W} `{Host W} (w : W) : Prop :=
  exists w1 w2 folders mfolder w3 mdocuments topfolders,
    get_session w = (w1, Ok tt)
    /\ get_folders w1 = (w2, Ok folders)
    /\ find_folder REMARKABLE_FOLDER_IN_MENDELEY folders = Some mfolder
    /\ folder_documents mfolder w2 = (w3, Ok mdocuments)
    /\ res (RmApi_subfolders RmApi_default None w3) = Ok topfolders
    /\ PyStr.mem MENDELEY_FOLDER_IN_REMARKABLE topfolders = false.

(** ** A scripted host

    A host whose answers are read off a scenario; its state counts the
    identifiers drawn so far. *)

Module Scripted.

Record scenario := {
  folders : list Folder;
  documents : list Document;
  attachments : Document -> list MFile;
  process : list string -> Completed;
  present : string -> bool;
  removal : string -> result unit
}.

Definition quote (s : string) : string := "'" ++ s ++ "'".

Fixpoint hex_of (n : nat) : string :=
  match n with
  | O => "a3f0"
  | S k => "b" ++ hex_of k
  end.

#[local] Instance host (sc : scenario) : Host nat := {|
  get_session w := (w, Ok tt);
  get_folders w := (w, Ok (folders sc));
  folder_documents _ w := (w, Ok (documents sc));
  popen args w := (w, Ok (process sc args));
  os_path_exists path w := (w, present sc path);
  shutil_move _ dst w := (w, Ok dst);
  os_remove path w := (w, removal sc path);
  os_makedirs _ w := (w, Ok tt);
  uuid4_hex w := (S w, hex_of w);
  files_iter m w := (w, Ok (attachments sc m));
  file_delete _ w := (w, Ok tt);
  file_download f dir w := (w, Ok (dir ++ "/" ++ file_id f ++ ".pdf"));
  attach_file _ _ w := (w, Ok tt);
  decode_utf8 s := Ok s;
  repr_str := quote;
  repr_tuple l := "(" ++ PyStr.join ", " (map quote l) ++ ")";
  repr_bytes s := "b" ++ quote s;
  str_file f := "<File " ++ file_id f ++ ">"
|}.

Definition paper_a : Document := {| doc_id := "1"; doc_title := "A." |}.
Definition paper_b : Document := {| doc_id := "2"; doc_title := "B" |}.

Definition finished (out err : string) (code : Z) : Completed :=
  {| returncode := code; stdout := out; stderr := err |}.

Definition line (tag name : string) : string :=
  tag ++ String tab name.

(** [rmapi] as the scenarios below script it: [ls] lists the folder
    [top] at the root and the files [inside] below it; [geta] fails on
    the keys of [bare], which have no annotation layer yet. *)
Definition rmapi_process (top : string) (inside bare : list string) (args : list string)
  : Completed :=
  match args with
  | [_; "ls"] => finished (line "[d]" top) EmptyString 0
  | [_; "ls"; _] =>
      finished (PyStr.join (String newline EmptyString) (map (line "[f]") inside)) EmptyString 0
  | [_; "geta"; "-a"; rpath] =>
      if existsb (fun k => String.eqb rpath (MENDELEY_FOLDER_IN_REMARKABLE ++ "/" ++ k)) bare
      then finished EmptyString "Failed to generate annotations" 1
      else finished EmptyString EmptyString 0
  | _ => finished EmptyString EmptyString 0
  end.

(** Mendeley holds A and B in the folder, the tablet holds B and C. *)
Definition steady : scenario := {|
  folders := [ {| folder_id := "f1"; folder_name := "Remarkable"; folder_parent := None |} ];
  documents := [paper_a; paper_b];
  attachments m := [ {| file_id := doc_id m ++ "-main" |}; {| file_id := doc_id m ++ "-extra" |} ];
  process := rmapi_process "Mendeley" ["B---2"; "C---3"] [];
  present _ := true;
  removal _ := Ok tt
|}.

(** The same, with B not annotated yet on the tablet. *)
Definition unannotated : scenario := {|
  folders := folders steady;
  documents := documents steady;
  attachments := attachments steady;
  process := rmapi_process "Mendeley" ["B---2"; "C---3"] ["B---2"];
  present := present steady;
  removal := removal steady
|}.

(** Mendeley has no folder of the configured name. *)
Definition no_source_folder : scenario := {|
  folders := [ {| folder_id := "f0"; folder_name := "Inbox"; folder_parent := None |} ];
  documents := [];
  attachments _ := [];
  process := rmapi_process "Mendeley" [] [];
  present _ := true;
  removal _ := Ok tt
|}.

(** The tablet has no folder of the configured name. *)
Definition no_target_folder : scenario := {|
  folders := folders steady;
  documents := documents steady;
  attachments := attachments steady;
  process := rmapi_process "Books" [] [];
  present _ := true;
  removal _ := Ok tt
|}.

(** A paper whose title is the text the handler of line 288 looks for, on
    both sides and annotated; [rmapi] leaves no zip behind, so the removal
    of line 223 raises, naming the file. *)
Definition paper_f : Document :=
  {| doc_id := "9"; doc_title := "Failed to generate annotations" |}.

Definition zip_missing : scenario := {|
  folders := folders steady;
  documents := [paper_f];
  attachments := attachments steady;
  process := rmapi_process "Mendeley" ["Failed to generate annotations---9"] [];
  present _ := true;
  removal path :=
    if String.eqb path "Failed to generate annotations---9.zip"
    then Raise (Exception ("[Errno 2] No such file or directory: " ++ quote path))
    else Ok tt
|}.

(** What the runs below are made on. *)
Definition rmapi : string := RmApi_default.
Definition docs : list Document := documents steady.
Definition on_tablet : list string := ["B---2"; "C---3"].

(** The progress lines of a trace. *)
Definition printed (tr : list event) : list string :=
  omap (fun e => match e with EvPrint line => Some line | _ => None end) tr.

End Scripted.

(** ** The rest of the script: listings *)

(** Lines 204-206 (and 211-213): the rows of an [rmapi ls] output with the
    given tag. *)
Definition parse_listing (tag text : string) : result (list string) :=
  select_entries tag (map (PyStr.split tab) (PyStr.split newline text)).

(** What [rmapi ls] prints for a folder ([true]) or a file ([false]) of
    the given name: the tag, a tab, the name, and the end of the line. *)
Definition tag_of (dir : bool) : string := if dir then "[d]" else "[f]".

Definition listing_row (entry : bool * string) : string :=
  tag_of (fst entry) ++ String tab (snd entry) ++ String newline EmptyString.

Fixpoint listing_text (entries : list (bool * string)) : string :=
  match entries with
  | [] => EmptyString
  | e :: es => listing_row e ++ listing_text es
  end.

(** A name that [rmapi ls] can print on one row. *)
Definition plain_name (name : string) : Prop :=
  ~ In tab (list_ascii_of_string name) /\ ~ In newline (list_ascii_of_string name).

(** The names listed with a given kind. *)
Definition names_of (dir : bool) (entries : list (bool * string)) : list string :=
  map snd (List.filter (fun e => Bool.eqb (fst e) dir) entries).

(** The exception of an index past the end of a list. *)
Definition IndexError : exn := Exception "list index out of range".

(** The call [ls] makes: with no parent, or an empty one, only [ls]. *)
Definition ls_args (self : string) (parent : option string) : list string :=
  self :: "ls" :: (if falsy parent then [] else [default EmptyString parent]).

(** ** The rest of the script: the calls of a run *)

(** An upload to the tablet, an export from it. *)
Definition is_put (e : event) : bool :=
  match e with
  | EvPopen (_ :: cmd :: _) _ => String.eqb cmd "put"
  | _ => false
  end.

Definition is_geta (e : event) : bool :=
  match e with
  | EvPopen (_ :: cmd :: _) _ => String.eqb cmd "geta"
  | _ => false
  end.

(** A call to Mendeley. *)
Definition mendeley_call (e : event) : bool :=
  match e with
  | EvGetSession _ | EvGetFolders _ | EvDocuments _ _
  | EvFilesIter _ _ | EvFileDelete _ _ | EvFileDownload _ _ _ | EvAttachFile _ _ _ => true
  | _ => false
  end.


(** Lines 280-334: the three passes and the closing line, given the
    documents and the files of the two folders. *)
Definition passes {W} `{Host W} (rmapi : string) (mdocuments : list Document)
    (rfiles : list string) : M W unit :=
  (sync_pass rmapi mdocuments (mfiles mdocuments) (m_and_r (mfiles mdocuments) rfiles) ;;;
   push_pass rmapi mdocuments (mfiles mdocuments) (m_minus_r (mfiles mdocuments) rfiles) ;;;
   delete_pass rmapi (r_minus_m (mfiles mdocuments) rfiles) ;;;
   print ["Sync complete! Refresh your mendeley and remarkable apps."])%sync.

(** A run that comes after the calls [pre]. *)
Definition after {W A} (pre : list event) (o : outcome W A) : outcome W A :=
  Outcome (res o) (world o) (pre ++ trace o)%list.


(** The calls [main] makes before the passes, all listings answering. *)
Definition listings (folders : list Folder) (mfolder : Folder) (mdocuments : list Document)
    (r1 r2 : result Completed) : list event :=
  [ EvGetSession (Ok tt); EvGetFolders (Ok folders); EvDocuments mfolder (Ok mdocuments);
    EvPopen (ls_args RmApi_default None) r1;
    EvPopen (ls_args RmApi_default (Some MENDELEY_FOLDER_IN_REMARKABLE)) r2 ].

(** The exception [_run] raises for a non-zero exit status, line 198. *)
Definition rmapi_error {W} `{Host W} (self : string) (args : list string) (p : Completed) : exn :=
  Exception ("RmAPI " ++ repr_tuple (self :: args)
             ++ " command failed: " ++ repr_bytes (stderr p)).

(** ** [class Folder], lines 134-183 *)

(** A response of [session.request]: [content rsp] is what
    [json.loads(rsp.content)] gives, a list of objects with string fields,
    and [next_link rsp] is [rsp.links["next"]["url"]] when ["next"] is in
    [rsp.links]. *)
Record Response := { content : list (PyDict.t string); next_link : option string }.

(** The Mendeley session: raw requests and [session.documents.get]. *)
Class Session (W : Type) : Type := {
  request : string -> string -> W -> W * result Response;
  documents_get : string -> W -> W * result Document
}.

Definition MENDELEY_PAGINATION_LIMIT : string := "500".

(** [f[k]] on an object; the text of a [KeyError] is the quoted key. *)
Definition field (k : string) (f : PyDict.t string) : result string :=
  match PyDict.get k f with
  | Some v => Ok v
  | None => Raise (Exception ("'" ++ k ++ "'"))
  end.

(** Line 152: the element appended for an object of a documents page. *)
Definition document_id_of (f : PyDict.t string) : result string := field "id" f.

(** Lines 176-177: the element appended for an object of a folders page. *)
Definition folder_of (f : PyDict.t string) : result Folder :=
  let parent_id := PyDict.get "parent_id" f in
  match field "id" f with
  | Raise ex => Raise ex
  | Ok id =>
      match field "name" f with
      | Raise ex => Raise ex
      | Ok name => Ok {| folder_id := id; folder_name := name; folder_parent := parent_id |}
      end
  end.

(** The inner [for] of lines 151-152 and 175-177: the elements of one page
    are appended to the list. *)
Fixpoint append_page {A} (item : PyDict.t string -> result A) (objects : list (PyDict.t string))
    (acc : list A) : result (list A) :=
  match objects with
  | [] => Ok acc
  | f :: rest =>
      match item f with
      | Raise ex => Raise ex
      | Ok x => append_page item rest (acc ++ [x])%list
      end
  end.

(** The [while True] of lines 149-157 and 173-182, entered with the
    response [rsp]; [None] when [fuel] turns of the loop were not enough. *)
Fixpoint read_pages {W} `{Session W} {A} (item : PyDict.t string -> result A) (fuel : nat)
    (rsp : Response) (acc : list A) (w : W) : option (W * result (list A)) :=
  match fuel with
  | O => None
  | S fuel' =>
      match append_page item (content rsp) acc with
      | Raise ex => Some (w, Raise ex)
      | Ok acc' =>
          match next_link rsp with
          | None => Some (w, Ok acc')
          | Some url =>
              match request "GET" url w with
              | (w1, Raise ex) => Some (w1, Raise ex)
              | (w1, Ok rsp') => read_pages item fuel' rsp' acc' w1
              end
          end
      end
  end.

(** The first request and the loop. *)
Definition paginate {W} `{Session W} {A} (item : PyDict.t string -> result A) (fuel : nat)
    (uri : string) (w : W) : option (W * result (list A)) :=
  match request "GET" uri w with
  | (w1, Raise ex) => Some (w1, Raise ex)
  | (w1, Ok rsp) => read_pages item fuel rsp [] w1
  end.

(** [[session.documents.get(id) for id in document_ids]], line 163. *)
Fixpoint get_documents {W} `{Session W} (ids : list string) (w : W)
    : W * result (list Document) :=
  match ids with
  | [] => (w, Ok [])
  | id :: rest =>
      match documents_get id w with
      | (w1, Raise ex) => (w1, Raise ex)
      | (w1, Ok d) =>
          match get_documents rest w1 with
          | (w2, Raise ex) => (w2, Raise ex)
          | (w2, Ok ds) => (w2, Ok (d :: ds))
          end
      end
  end.

Definition FOLDERS_DOCS_REST_URI (id limit : string) : string :=
  "https://api.mendeley.com/folders/" ++ id ++ "/documents?limit=" ++ limit.

Definition FOLDERS_REST_URI (limit : string) : string :=
  "https://api.mendeley.com/folders?limit=" ++ limit.

(** [Folder.documents(self, session)], lines 143-164. *)
Definition Folder_documents {W} `{Session W} (fuel : nat) (self : Folder) (w : W)
    : option (W * result (list Document)) :=
  let uri := FOLDERS_DOCS_REST_URI (folder_id self) MENDELEY_PAGINATION_LIMIT in
  match paginate document_id_of fuel uri w with
  | None => None
  | Some (w1, Raise ex) => Some (w1, Raise ex)
  | Some (w1, Ok document_ids) => Some (get_documents document_ids w1)
  end.

(** [Folder.get_folders(session)], lines 167-183. *)
Definition Folder_get_folders {W} `{Session W} (fuel : nat) (w : W)
    : option (W * result (list Folder)) :=
  let uri := FOLDERS_REST_URI MENDELEY_PAGINATION_LIMIT in
  paginate folder_of fuel uri w.

(** The server answers the request for [url] and those for the links
    that follow with the pages [pages], the last of which has no link. *)
Inductive serves {W} `{Session W} : string -> W -> list Response -> W -> Prop :=
| serves_last url w w1 rsp :
    request "GET" url w = (w1, Ok rsp) ->
    next_link rsp = None ->
    serves url w [rsp] w1
| serves_more url w w1 rsp next pages w' :
    request "GET" url w = (w1, Ok rsp) ->
    next_link rsp = Some next ->
    serves next w1 pages w' ->
    serves url w (rsp :: pages) w'.

(** The pages still to come after a response. *)
Definition rest_served {W} `{Session W} (rsp : Response) (w : W) (pages : list Response)
    (w' : W) : Prop :=
  match next_link rsp with
  | None => pages = [] /\ w' = w
  | Some next => serves next w pages w'
  end.

(** All the objects of the pages, and their elements when every object
    has its fields. *)
Definition objects_of (pages : list Response) : list (PyDict.t string) :=
  concat (map content pages).

Fixpoint items_of {A} (item : PyDict.t string -> result A) (objects : list (PyDict.t string))
    : result (list A) :=
  match objects with
  | [] => Ok []
  | f :: rest =>
      match item f with
      | Raise ex => Raise ex
      | Ok x =>
          match items_of item rest with
          | Raise ex => Raise ex
          | Ok xs => Ok (x :: xs)
          end
      end
  end.

(** A server with two pages of folders, and one that always links on. *)
Module Paging.

Definition obj (id name : string) : PyDict.t string := [("id", id); ("name", name)].

Definition page1 : Response :=
  {| content := [obj "f1" "Remarkable"; [("id", "f2"); ("name", "Sub"); ("parent_id", "f1")]];
     next_link := Some "https://api.mendeley.com/folders?marker=2" |}.

Definition page2 : Response :=
  {| content := [obj "f3" "Inbox"]; next_link := None |}.

#[local] Instance two_pages : Session unit := {|
  request _ url w :=
    (w, if String.eqb url "https://api.mendeley.com/folders?marker=2" then Ok page2 else Ok page1);
  documents_get id w := (w, Ok {| doc_id := id; doc_title := "T" |})
|}.


#[local] Instance one_bad_page : Session unit := {|
  request _ url w :=
    (w, Ok {| content := [obj "f1" "A"; [("name", "B")]]; next_link := Some url |});
  documents_get id w := (w, Ok {| doc_id := id; doc_title := "T" |})
|}.

End Paging.

(** ** More scripted hosts *)

Module Scenarios.

Import Scripted.

(** [rmapi ls] prints a folder and a file, each on its row. *)
Definition shown : list (bool * string) := [(true, "Mendeley"); (false, "B---2")].

Definition listing : scenario := {|
  folders := folders steady;
  documents := documents steady;
  attachments := attachments steady;
  process _ := finished (listing_text shown) EmptyString 0;
  present := present steady;
  removal := removal steady
|}.

(** [rmapi ls] prints a tag with nothing after it. *)
Definition bare_tag : scenario := {|
  folders := folders steady;
  documents := documents steady;
  attachments := attachments steady;
  process _ := finished "[d]" EmptyString 0;
  present := present steady;
  removal := removal steady
|}.

(** The tablet cloud cannot be reached for exports and uploads. *)
Definition offline : scenario := {|
  folders := folders steady;
  documents := documents steady;
  attachments := attachments steady;
  process args :=
    match args with
    | [_; "geta"; _; _] | [_; "put"; _; _] => finished EmptyString "connection refused" 1
    | _ => process steady args
    end;
  present := present steady;
  removal := removal steady
|}.

(** Local files cannot be removed. *)
Definition read_only_disk : scenario := {|
  folders := folders steady;
  documents := documents steady;
  attachments := attachments steady;
  process := process steady;
  present := present steady;
  removal _ := Raise (Exception "[Errno 13] Permission denied")
|}.


Definition steady_trace : list event := trace (main (H := host steady) 0).

End Scenarios.

(** ** The turn of a target-only key that went through *)

(** The [rm] of a key, line 331. *)
Definition rm_call (rmapi doc : string) (r : result Completed) : event :=
  EvPopen [rmapi; "rm"; MENDELEY_FOLDER_IN_REMARKABLE ++ "/" ++ doc] r.

(** The calls of a turn of lines 324-332 that returned: the backup, then
    the [rm] of the key with status 0, then the progress line. *)
Definition removed_turn (rmapi doc : string) (t : list event) : Prop :=
  exists p d1 d2 p',
    returncode p = 0%Z /\ returncode p' = 0%Z
    /\ t = (backup_done rmapi doc p d1 d2
            ++ [rm_call rmapi doc (Ok p'); EvPrint ("Document removed: " ++ doc)])%list.

(** ** The listings of [main], lines 244-266 *)

(** The five listings of [main] answered on [w] and both folders were
    found: what each call returned, and the world the last one left. *)
Definition listings_answered {W} `{Host W} (w : W) (folders : list Folder) (mfolder : Folder)
    (mdocuments : list Document) (rfiles : list string) (r1 r2 : result Completed)
    (w5 : W) : Prop :=
  exists w1 w2 w3 w4 topfolders,
    get_session w = (w1, Ok tt)
    /\ get_folders w1 = (w2, Ok folders)
    /\ find_folder REMARKABLE_FOLDER_IN_MENDELEY folders = Some mfolder
    /\ folder_documents mfolder w2 = (w3, Ok mdocuments)
    /\ popen (ls_args RmApi_default None) w3 = (w4, r1)
    /\ res (RmApi_subfolders RmApi_default None w3) = Ok topfolders
    /\ PyStr.mem MENDELEY_FOLDER_IN_REMARKABLE topfolders = true
    /\ popen (ls_args RmApi_default (Some MENDELEY_FOLDER_IN_REMARKABLE)) w4 = (w5, r2)
    /\ res (RmApi_files RmApi_default (Some MENDELEY_FOLDER_IN_REMARKABLE) w4) = Ok rfiles.

(** One of the listings of [main] raised [ex] on [w], those before it
    having answered, or a folder is missing and [ex] is what lines 253 and
    266 raise then. *)
Definition listing_failed {W} `{Host W} (w : W) (ex : exn) : Prop :=
  (exists w1, get_session w = (w1, Raise ex))
  \/ (exists w1 w2, get_session w = (w1, Ok tt) /\ get_folders w1 = (w2, Raise ex))
  \/ (source_folder_missing w
      /\ ex = Exception "Cannot find remarkable folder in mendeley!")
  \/ (exists w1 w2 folders mfolder w3,
        get_session w = (w1, Ok tt)
        /\ get_folders w1 = (w2, Ok folders)
        /\ find_folder REMARKABLE_FOLDER_IN_MENDELEY folders = Some mfolder
        /\ folder_documents mfolder w2 = (w3, Raise ex))
  \/ (exists w1 w2 folders mfolder w3 mdocuments,
        get_session w = (w1, Ok tt)
        /\ get_folders w1 = (w2, Ok folders)
        /\ find_folder REMARKABLE_FOLDER_IN_MENDELEY folders = Some mfolder
        /\ folder_documents mfolder w2 = (w3, Ok mdocuments)
        /\ res (RmApi_subfolders RmApi_default None w3) = Raise ex)
  \/ (target_folder_missing w
      /\ ex = Exception "Cannot find mendeley folder in remarkable!")
  \/ (exists w1 w2 folders mfolder w3 mdocuments topfolders,
        get_session w = (w1, Ok tt)
        /\ get_folders w1 = (w2, Ok folders)
        /\ find_folder REMARKABLE_FOLDER_IN_MENDELEY folders = Some mfolder
        /\ folder_documents mfolder w2 = (w3, Ok mdocuments)
        /\ res (RmApi_subfolders RmApi_default None w3) = Ok topfolders
        /\ PyStr.mem MENDELEY_FOLDER_IN_REMARKABLE topfolders = true
        /\ res (RmApi_files RmApi_default (Some MENDELEY_FOLDER_IN_REMARKABLE)
                  (world (RmApi_subfolders RmApi_default None w3))) = Raise ex).

(** * Properties *)

(** ** Spot checks *)

Example to_filename_ex :
  to_filename "Attention. Is All You Need." false = "Attention Is All You Need".
Proof. reflexivity. Qed.

Example replace_ex : PyStr.replace "aa" "b" "aaaxaa" = "baxb".
Proof. reflexivity. Qed.

Example split_ex :
  PyStr.split tab ("[d]" ++ String tab "Mendeley") = ["[d]"; "Mendeley"].
Proof. reflexivity. Qed.

Example select_entries_ex :
  select_entries "[f]" [["[d]"; "Books"]; ["[f]"; "B---2"]; [EmptyString]] = Ok ["B---2"]
  /\ select_entries "[f]" [["[f]"]] = Raise (Exception "list index out of range").
Proof. split; reflexivity. Qed.

Example dict_overwrite_ex :
  PyDict.of_pairs [("a", 0); ("b", 1); ("a", 2)] = [("a", 2); ("b", 1)].
Proof. reflexivity. Qed.

(** ** Strings *)

Lemma prefix_period (c : ascii) (rest : string) :
  String.prefix "." (String c rest) = Ascii.eqb c ".".
Proof.
  cbn [String.prefix]. destruct (Ascii.ascii_dec "." c) as [<- | Hne].
  - rewrite Ascii.eqb_refl. now destruct rest.
  - symmetry. apply Ascii.eqb_neq. congruence.
Qed.

Lemma replace_period (s : string) :
  list_ascii_of_string (PyStr.replace "." EmptyString s)
  = List.filter (fun c => negb (Ascii.eqb c ".")) (list_ascii_of_string s).
Proof.
  unfold PyStr.replace.
  induction s as [| c rest IH].
  - reflexivity.
  - cbn [PyStr.replace_scan]. rewrite prefix_period.
    cbn [list_ascii_of_string List.filter String.length Nat.sub].
    destruct (Ascii.eqb c ".").
    + exact IH.
    + cbn. now rewrite IH.
Qed.

Lemma list_ascii_inj (s1 s2 : string) :
  list_ascii_of_string s1 = list_ascii_of_string s2 -> s1 = s2.
Proof.
  intros E. rewrite <- (string_of_list_ascii_of_string s1),
    <- (string_of_list_ascii_of_string s2). now rewrite E.
Qed.

Lemma filter_filter_same {A} (p : A -> bool) (l : list A) :
  List.filter p (List.filter p l) = List.filter p l.
Proof.
  induction l as [| x l IH]; [reflexivity |].
  cbn. destruct (p x) eqn:E; cbn; rewrite ?E, IH; reflexivity.
Qed.

(** C10: [to_filename] removes every period and changes nothing else,
    whatever [nospaces] is; applying it twice is applying it once. *)
Theorem to_filename_removes_periods (text : string) (nospaces nospaces' : bool) :
  list_ascii_of_string (to_filename text nospaces)
    = List.filter (fun c => negb (Ascii.eqb c ".")) (list_ascii_of_string text)
  /\ to_filename text nospaces = to_filename text nospaces'
  /\ to_filename (to_filename text nospaces) nospaces' = to_filename text nospaces.
Proof.
  unfold to_filename. split; [apply replace_period |]. split; [reflexivity |].
  apply list_ascii_inj. rewrite !replace_period. apply filter_filter_same.
Qed.

Lemma append_nil (t : string) : EmptyString ++ t = t.
Proof. reflexivity. Qed.

Lemma append_cons (c : ascii) (s t : string) : String c s ++ t = String c (s ++ t).
Proof. reflexivity. Qed.

Lemma string_app_inv_head (p s1 s2 : string) : p ++ s1 = p ++ s2 -> s1 = s2.
Proof.
  induction p as [| c p IH]; rewrite ?append_nil, ?append_cons; [trivial |].
  intros E. injection E as E. auto.
Qed.

(** C4: the key is a function of the title and the id, and for one title
    two different ids never give the same key. *)
Theorem canonicalize_injective_in_id (t id1 id2 : string) :
  (id1 = id2 -> canonicalize t id1 = canonicalize t id2)
  /\ (id1 <> id2 -> canonicalize t id1 <> canonicalize t id2).
Proof.
  split.
  - now intros ->.
  - intros Hne E. apply Hne. unfold canonicalize in E.
    apply string_app_inv_head in E. now apply string_app_inv_head in E.
Qed.

(** The same holds across two titles that sanitize alike. *)
Lemma canonicalize_same_sanitized_title (t1 t2 id1 id2 : string) :
  to_filename t1 false = to_filename t2 false ->
  canonicalize t1 id1 = canonicalize t2 id2 -> id1 = id2.
Proof.
  unfold canonicalize. intros -> E.
  apply string_app_inv_head in E. now apply string_app_inv_head in E.
Qed.

Lemma prefix_app (n b : string) : String.prefix n (n ++ b) = true.
Proof.
  induction n as [| c n IH]; rewrite ?append_nil, ?append_cons; cbn [String.prefix].
  - now destruct b.
  - destruct (Ascii.ascii_dec c c); [exact IH | congruence].
Qed.

Lemma prefix_inv (n hay : string) :
  String.prefix n hay = true -> exists b, hay = n ++ b.
Proof.
  revert hay. induction n as [| c n IH]; intros hay Hp.
  - now exists hay.
  - destruct hay as [| d hay]; cbn [String.prefix] in Hp; [discriminate |].
    destruct (Ascii.ascii_dec c d) as [-> | _]; [| discriminate].
    destruct (IH _ Hp) as [b ->]. now exists b.
Qed.

Lemma contains_inv (n hay : string) :
  PyStr.contains n hay = true -> exists a b, hay = a ++ n ++ b.
Proof.
  induction hay as [| c hay IH]; cbn [PyStr.contains]; intros Hc.
  - rewrite orb_false_r in Hc. apply prefix_inv in Hc as [b ->]. now exists EmptyString, b.
  - apply orb_true_iff in Hc as [Hp | Hc].
    + apply prefix_inv in Hp as [b ->]. now exists EmptyString, b.
    + destruct (IH Hc) as (a & b & ->). now exists (String c a), b.
Qed.

Lemma contains_app (a n b : string) : PyStr.contains n (a ++ n ++ b) = true.
Proof.
  induction a as [| c a IH].
  - rewrite append_nil.
    destruct (n ++ b) eqn:E; cbn [PyStr.contains]; rewrite <- E, prefix_app; reflexivity.
  - rewrite append_cons. cbn [PyStr.contains]. rewrite IH. apply orb_true_r.
Qed.

Lemma replace_period_app (a b : string) :
  PyStr.replace "." EmptyString (a ++ b)
  = PyStr.replace "." EmptyString a ++ PyStr.replace "." EmptyString b.
Proof.
  unfold PyStr.replace. induction a as [| c a IH]; [reflexivity |].
  rewrite append_cons. cbn [PyStr.replace_scan]. rewrite !prefix_period.
  cbn [String.length Nat.sub]. destruct (Ascii.eqb c ".");
    rewrite ?append_nil, ?append_cons; now rewrite IH.
Qed.

Lemma contains_period_false (s : string) :
  PyStr.contains "." s = false <-> ~ In "."%char (list_ascii_of_string s).
Proof.
  induction s as [| c s IH]; cbn [PyStr.contains list_ascii_of_string In].
  - split; [tauto | reflexivity].
  - rewrite prefix_period, orb_false_iff, IH, Ascii.eqb_neq. intuition congruence.
Qed.

(** C5, as the code has it: the sanitized title has no period; hyphens are
    kept, so a title that contains the delimiter still contains it. *)
Theorem to_filename_strips_periods_only (text : string) (nospaces : bool) :
  PyStr.contains "." (to_filename text nospaces) = false
  /\ (PyStr.contains "---" text = true ->
      PyStr.contains "---" (to_filename text nospaces) = true).
Proof.
  split.
  - apply contains_period_false. unfold to_filename. rewrite replace_period.
    intros Hin. apply List.filter_In in Hin as [_ Hc].
    now rewrite Ascii.eqb_refl in Hc.
  - intros Hc. apply contains_inv in Hc as (a & b & ->).
    unfold to_filename. rewrite !replace_period_app.
    change (PyStr.replace "." EmptyString "---") with "---". apply contains_app.
Qed.

(** C5, as stated, fails: this title keeps its three hyphens. *)
Lemma to_filename_keeps_delimiter :
  PyStr.contains "---" (to_filename "Q---A" false) = true.
Proof. reflexivity. Qed.

Lemma to_filename_strips_periods_only_witness :
  PyStr.contains "." (to_filename "a.---.b" false) = false
  /\ PyStr.contains "---" (to_filename "a.---.b" false) = true.
Proof.
  destruct (to_filename_strips_periods_only "a.---.b" false) as [H1 H2].
  split; [exact H1 | apply H2; reflexivity].
Defined.

(** With the delimiter inside a title, two different documents can share a
    key. *)
Example canonicalize_collision :
  canonicalize "a---b" "c" = canonicalize "a" "b---c".
Proof. reflexivity. Qed.

Lemma list_ascii_app (a b : string) :
  list_ascii_of_string (a ++ b) = (list_ascii_of_string a ++ list_ascii_of_string b)%list.
Proof.
  induction a as [| c a IH]; rewrite ?append_nil, ?append_cons; [reflexivity |].
  cbn [list_ascii_of_string app]. now rewrite IH.
Qed.

(** A name that ends in [.zip] is not one that ends in [.pdf]. *)
Lemma zip_is_not_pdf (a b : string) : a ++ ".zip" <> b ++ ".pdf".
Proof.
  intros E. apply (f_equal list_ascii_of_string) in E. rewrite !list_ascii_app in E.
  apply app_inj_2 in E as [_ E]; [discriminate E | reflexivity].
Qed.

(** ** Membership and dictionaries *)

Lemma mem_true (x : string) (l : list string) : PyStr.mem x l = true <-> x ∈ l.
Proof.
  induction l as [| y l IH]; cbn [PyStr.mem].
  - split; [discriminate | intros Hin; inversion Hin].
  - rewrite orb_true_iff, IH, String.eqb_eq, elem_of_cons. reflexivity.
Qed.

Lemma mem_false (x : string) (l : list string) : PyStr.mem x l = false <-> x ∉ l.
Proof. rewrite <- mem_true. destruct (PyStr.mem x l); split; congruence. Qed.

Lemma elem_of_List_filter {A} (p : A -> bool) (l : list A) (x : A) :
  x ∈ List.filter p l <-> x ∈ l /\ p x = true.
Proof. rewrite !list_elem_of_In. apply List.filter_In. Qed.

Lemma elem_of_m_and_r (mf : PyDict.t nat) (rfiles : list string) (f : string) :
  f ∈ m_and_r mf rfiles <-> f ∈ PyDict.keys mf /\ f ∈ rfiles.
Proof. unfold m_and_r. now rewrite elem_of_List_filter, mem_true. Qed.

Lemma elem_of_m_minus_r (mf : PyDict.t nat) (rfiles : list string) (f : string) :
  f ∈ m_minus_r mf rfiles <-> f ∈ PyDict.keys mf /\ f ∉ rfiles.
Proof. unfold m_minus_r. now rewrite elem_of_List_filter, negb_true_iff, mem_false. Qed.

Lemma elem_of_r_minus_m (mf : PyDict.t nat) (rfiles : list string) (f : string) :
  f ∈ r_minus_m mf rfiles <-> f ∈ rfiles /\ f ∉ PyDict.keys mf.
Proof.
  unfold r_minus_m, PyDict.has_key.
  now rewrite elem_of_List_filter, negb_true_iff, mem_false.
Qed.

(** C1: as sets, the three lists of lines 272-274 are the intersection and
    the two differences of the source keys and the target keys; they are
    pairwise disjoint and cover the union.  Every finite [S] and [T] arise
    so, the empty sets and [S = T] included. *)
Theorem reconcile_is_three_way_partition (mf : PyDict.t nat) (rfiles : list string) :
  key_set (m_and_r mf rfiles) = key_set (PyDict.keys mf) ∩ key_set rfiles
  /\ key_set (m_minus_r mf rfiles) = key_set (PyDict.keys mf) ∖ key_set rfiles
  /\ key_set (r_minus_m mf rfiles) = key_set rfiles ∖ key_set (PyDict.keys mf)
  /\ key_set (m_and_r mf rfiles) ## key_set (m_minus_r mf rfiles)
  /\ key_set (m_and_r mf rfiles) ## key_set (r_minus_m mf rfiles)
  /\ key_set (m_minus_r mf rfiles) ## key_set (r_minus_m mf rfiles)
  /\ key_set (m_and_r mf rfiles) ∪ key_set (m_minus_r mf rfiles) ∪ key_set (r_minus_m mf rfiles)
     = key_set (PyDict.keys mf) ∪ key_set rfiles.
Proof.
  unfold key_set.
  repeat split; try apply set_eq; intros f;
    rewrite ?elem_of_union, ?elem_of_intersection, ?elem_of_difference,
      ?elem_of_list_to_set, ?elem_of_m_and_r, ?elem_of_m_minus_r, ?elem_of_r_minus_m;
    try tauto.
  destruct (decide (f ∈ rfiles)), (decide (f ∈ PyDict.keys mf)); tauto.
Qed.

(** Every pair of finite key sets is the pair of key sets of some [mfiles]
    and [rfiles]. *)
Lemma key_sets_arise (S T : gset string) :
  exists (mf : PyDict.t nat) (rfiles : list string),
    NoDup (PyDict.keys mf) /\ key_set (PyDict.keys mf) = S /\ key_set rfiles = T.
Proof.
  exists (map (fun k => (k, 0)) (elements S)), (elements T).
  unfold PyDict.keys, key_set. rewrite map_map. cbn [fst]. rewrite map_id.
  repeat split; [apply NoDup_elements | apply list_to_set_elements_L ..].
Qed.

Module PyDictFacts.

Import PyDict.

Lemma get_set_eq {V} (k : string) (v : V) (d : t V) : get k (set k v d) = Some v.
Proof.
  induction d as [| [k' v'] d IH]; cbn [set get].
  - now rewrite String.eqb_refl.
  - destruct (String.eqb k' k) eqn:E; cbn [get]; rewrite E; [reflexivity | exact IH].
Qed.

Lemma get_set_ne {V} (k k0 : string) (v : V) (d : t V) :
  k <> k0 -> get k0 (set k v d) = get k0 d.
Proof.
  intros Hne. induction d as [| [k' v'] d IH]; cbn [set get].
  - apply String.eqb_neq in Hne. now rewrite Hne.
  - destruct (String.eqb k' k) eqn:E; cbn [get].
    + apply String.eqb_eq in E as ->. apply String.eqb_neq in Hne. now rewrite Hne.
    + now rewrite IH.
Qed.

Lemma elem_of_keys_set {V} (k k0 : string) (v : V) (d : t V) :
  k0 ∈ keys (set k v d) <-> k0 = k \/ k0 ∈ keys d.
Proof.
  unfold keys. induction d as [| [k' v'] d IH]; cbn [set map fst].
  - rewrite elem_of_cons. tauto.
  - destruct (String.eqb k' k) eqn:E; cbn [map fst]; rewrite !elem_of_cons.
    + apply String.eqb_eq in E as ->. tauto.
    + rewrite IH. tauto.
Qed.

Lemma NoDup_keys_set {V} (k : string) (v : V) (d : t V) :
  NoDup (keys d) -> NoDup (keys (set k v d)).
Proof.
  unfold keys. induction d as [| [k' v'] d IH]; cbn [set map fst]; intros Hnd.
  - apply NoDup_singleton.
  - destruct (String.eqb k' k) eqn:E; cbn [map fst]; [exact Hnd |].
    apply NoDup_cons in Hnd as [Hnot Hnd]. apply NoDup_cons. split; [| auto].
    intros Hin. apply (elem_of_keys_set k k' v d) in Hin as [-> | Hin]; [| tauto].
    now rewrite String.eqb_refl in E.
Qed.

Lemma get_is_Some {V} (k : string) (d : t V) : is_Some (get k d) <-> k ∈ keys d.
Proof.
  unfold keys. induction d as [| [k' v'] d IH]; cbn [get map fst].
  - split; [intros [? ?]; discriminate | intros Hin; inversion Hin].
  - rewrite elem_of_cons. destruct (String.eqb k' k) eqn:E.
    + apply String.eqb_eq in E as ->. split; eauto.
    + apply String.eqb_neq in E. rewrite IH. split; [tauto | intros [-> | ?]; tauto].
Qed.

Lemma of_pairs_snoc {V} (l : list (string * V)) (kv : string * V) :
  of_pairs (l ++ [kv])%list = set (fst kv) (snd kv) (of_pairs l).
Proof. unfold of_pairs. now rewrite fold_left_app. Qed.

End PyDictFacts.

Lemma enumerate_from_snoc {A} (n : nat) (l : list A) (x : A) :
  enumerate_from n (l ++ [x])%list = (enumerate_from n l ++ [(n + length l, x)])%list.
Proof.
  revert n. induction l as [| y l IH]; intros n; cbn [enumerate_from app length].
  - now rewrite Nat.add_0_r.
  - rewrite IH, Nat.add_succ_r. reflexivity.
Qed.

Lemma mfiles_snoc (mdocuments : list Document) (m : Document) :
  mfiles (mdocuments ++ [m])%list
  = PyDict.set (doc_key m) (length mdocuments) (mfiles mdocuments).
Proof.
  unfold mfiles, enumerate. rewrite enumerate_from_snoc, map_app.
  cbn [map fst snd]. now rewrite PyDictFacts.of_pairs_snoc.
Qed.

Lemma mfiles_get (mdocuments : list Document) (k : string) (idx : nat) :
  PyDict.get k (mfiles mdocuments) = Some idx <-> last_with_key mdocuments k idx.
Proof.
  revert idx. induction mdocuments as [| m l IH] using rev_ind; intros idx.
  - cbn. split; [discriminate | intros [(m & Hm & _) _]; discriminate].
  - rewrite mfiles_snoc. destruct (decide (doc_key m = k)) as [<- | Hne].
    + rewrite PyDictFacts.get_set_eq. split.
      * intros [= <-]. split.
        -- exists m. split; [| reflexivity]. now rewrite list_lookup_middle.
        -- intros j m' Hj _. apply lookup_lt_Some in Hj. rewrite length_app in Hj. cbn in Hj. lia.
      * intros [(m0 & Hm0 & Hk0) Hlast].
        assert (Hlen : length l <= idx).
        { apply (Hlast _ m); [now rewrite list_lookup_middle | reflexivity]. }
        apply lookup_lt_Some in Hm0. rewrite length_app in Hm0. cbn in Hm0.
        f_equal. lia.
    + rewrite PyDictFacts.get_set_ne by exact Hne. rewrite IH. unfold last_with_key. split.
      * intros [(m0 & Hm0 & Hk0) Hlast]. split.
        -- exists m0. split; [| exact Hk0]. rewrite lookup_app_l; [exact Hm0 |].
           now apply lookup_lt_Some in Hm0.
        -- intros j m' Hj Hk. destruct (decide (j < length l)) as [Hlt | Hge].
           ++ rewrite lookup_app_l in Hj by exact Hlt. eauto.
           ++ rewrite lookup_app_r in Hj by lia.
              destruct (j - length l) as [| n] eqn:En; cbn in Hj; [| now destruct n].
              injection Hj as <-. contradiction.
      * intros [(m0 & Hm0 & Hk0) Hlast].
        assert (Hlt : idx < length l).
        { pose proof (lookup_lt_Some _ _ _ Hm0) as Hb. rewrite length_app in Hb. cbn in Hb.
          destruct (decide (idx = length l)) as [-> | ?]; [| lia].
          rewrite list_lookup_middle in Hm0 by reflexivity. injection Hm0 as <-. contradiction. }
        rewrite lookup_app_l in Hm0 by exact Hlt. split; [eauto |].
        intros j m' Hj Hk. apply (Hlast j m'); [| exact Hk].
        rewrite lookup_app_l; [exact Hj | now apply lookup_lt_Some in Hj].
Qed.

Lemma mfiles_NoDup (mdocuments : list Document) : NoDup (PyDict.keys (mfiles mdocuments)).
Proof.
  induction mdocuments as [| m l IH] using rev_ind.
  - apply NoDup_nil_2.
  - rewrite mfiles_snoc. now apply PyDictFacts.NoDup_keys_set.
Qed.

Lemma mfiles_keys (mdocuments : list Document) (k : string) :
  k ∈ PyDict.keys (mfiles mdocuments) <-> exists m, m ∈ mdocuments /\ doc_key m = k.
Proof.
  induction mdocuments as [| m l IH] using rev_ind.
  - cbn. split; [intros Hin; inversion Hin | intros (m & Hin & _); inversion Hin].
  - rewrite mfiles_snoc, PyDictFacts.elem_of_keys_set, IH. split.
    + intros [-> | (m0 & Hin & Hk)].
      * exists m. split; [| reflexivity]. apply elem_of_app. right.
        apply list_elem_of_singleton. reflexivity.
      * exists m0. split; [| exact Hk]. apply elem_of_app. now left.
    + intros (m0 & Hin & Hk). apply elem_of_app in Hin as [Hin | Hin].
      * right. eauto.
      * apply list_elem_of_singleton in Hin as ->. now left.
Qed.


(** ** Running the script *)

Lemma cons_split {A} (x e : A) (l pre post : list A) :
  x :: l = (pre ++ e :: post)%list ->
  (pre = [] /\ x = e /\ l = post)
  \/ (exists pre', pre = x :: pre' /\ l = (pre' ++ e :: post)%list).
Proof.
  destruct pre as [| y pre]; cbn [app]; intros [= -> ->]; [left | right]; eauto.
Qed.

Lemma nil_split {A} (e : A) (pre post : list A) : [] <> (pre ++ e :: post)%list.
Proof. now destruct pre. Qed.

Lemma app_split {A} (e : A) (l1 l2 pre post : list A) :
  (l1 ++ l2 = pre ++ e :: post)%list ->
  (exists post1, l1 = (pre ++ e :: post1)%list /\ post = (post1 ++ l2)%list)
  \/ (exists pre2, pre = (l1 ++ pre2)%list /\ l2 = (pre2 ++ e :: post)%list).
Proof.
  intros E. apply app_eq_inv in E as [(k & -> & E) | (k & -> & ->)].
  - destruct k as [| y k]; cbn [app] in E.
    + right. exists []. rewrite !app_nil_r. split; [reflexivity | now symmetry].
    + injection E as -> ->. left. eauto.
  - right. eauto.
Qed.

(** Walk a trace that is written out, looking for the event of [E]. *)
Ltac find_event E :=
  repeat
    (first
       [ apply nil_split in E; destruct E
       | apply cons_split in E as [(-> & E & <-) | (? & -> & E)];
         [ try discriminate E | ] ]).

Ltac use_returncode :=
  repeat match goal with
    | Hb : (returncode ?p =? 0)%Z = _, Hf : context [(returncode ?p =? 0)%Z] |- _ =>
        rewrite Hb in Hf
    | Hb : (returncode ?p =? 0)%Z = _ |- context [(returncode ?p =? 0)%Z] =>
        rewrite Hb
    end.

(** The two trace properties, on a trace that is written out. *)
Ltac solve_stops :=
  let E := fresh "E" in
  let Hf := fresh "Hf" in
  intros ? ? ? E Hf; find_event E; subst; cbn in Hf; use_returncode;
  first [ discriminate Hf | reflexivity ].

Ltac solve_unfailed :=
  repeat constructor; cbn; use_returncode; reflexivity.

Lemma rm_guarded_app (rmapi : string) (l1 l2 : list event) :
  rm_guarded rmapi l1 -> rm_guarded rmapi l2 -> rm_guarded rmapi (l1 ++ l2).
Proof.
  intros G1 G2 pre post rest r E. apply app_split in E as [(post1 & E & _) | (pre2 & -> & E)].
  - eapply G1, E.
  - destruct (G2 _ _ _ _ E) as (doc & pre' & p & d1 & d2 & -> & Hp & ->).
    exists doc, (l1 ++ pre')%list, p, d1, d2. now rewrite app_assoc.
Qed.

Lemma stops_at_failure_app (l1 l2 : list event) :
  Forall (fun e => failed e = false) l1 -> stops_at_failure l2 -> stops_at_failure (l1 ++ l2).
Proof.
  intros Hok S2 pre e post E Hf. apply app_split in E as [(post1 & -> & _) | (pre2 & -> & E)].
  - apply Forall_app in Hok as [_ Hok]. apply Forall_cons in Hok as [Hok _]. congruence.
  - eapply S2; eassumption.
Qed.

Lemma stops_at_failure_nil : stops_at_failure [].
Proof. intros pre e post E. now apply nil_split in E. Qed.

Lemma rm_guarded_nil (rmapi : string) : rm_guarded rmapi [].
Proof. intros pre post rest r E. now apply nil_split in E. Qed.

Section Effects.

Context {W : Type} `{Host W}.

Lemma for_each_cons {A} (x : A) (l : list A) (body : A -> M W unit) (w : W) :
  for_each (x :: l) body w
  = match body x w with
    | Outcome (Ok _) w1 t1 =>
        match for_each l body w1 with
        | Outcome r w2 t2 => Outcome r w2 (t1 ++ t2)%list
        end
    | Outcome (Raise ex) w1 t1 => Outcome (Raise ex) w1 t1
    end.
Proof. reflexivity. Qed.

(** Case on the answer of the next host call. *)
Ltac host_case :=
  match goal with
  | |- context [popen ?a ?w] => destruct (popen a w) as [? [?|?]] eqn:?
  | |- context [os_path_exists ?a ?w] => destruct (os_path_exists a w) as [? [|]] eqn:?
  | |- context [shutil_move ?a ?b ?w] => destruct (shutil_move a b w) as [? [?|?]] eqn:?
  | |- context [os_remove ?a ?w] => destruct (os_remove a w) as [? [[]|?]] eqn:?
  | |- context [os_makedirs ?a ?w] => destruct (os_makedirs a w) as [? [[]|?]] eqn:?
  | |- context [uuid4_hex ?w] => destruct (uuid4_hex w) as [? ?] eqn:?
  | |- context [if negb (returncode ?p =? 0)%Z then _ else _] =>
      destruct (returncode p =? 0)%Z eqn:?
  end; cbn -[String.append PyStr.join PyStr.contains].

Ltac run_script :=
  unfold delete_stale, download_annotated, RmApi_download, RmApi_upload, RmApi_remove,
    RmApi_run, bind, call, ask, print, raise, ret;
  repeat host_case.

(** One turn of the last loop. *)
Lemma delete_stale_turn (rmapi doc : string) (w : W) :
  rm_guarded rmapi (trace (delete_stale rmapi doc w))
  /\ stops_at_failure (trace (delete_stale rmapi doc w))
  /\ (forall u, res (delete_stale rmapi doc w) = Ok u ->
      Forall (fun e => failed e = false) (trace (delete_stale rmapi doc w))).
Proof.
  run_script.
  all: split; [| split; [solve_stops | intros u Hu; first [ discriminate Hu | solve_unfailed ]]].
  all: intros pre post rest r E; find_event E.
  all: injection E as <- <-.
  all: eexists doc, [], _, _, _; repeat split; now apply Z.eqb_eq.
Qed.

Lemma delete_stale_loop (rmapi : string) (keys : list string) (w : W) :
  rm_guarded rmapi (trace (for_each keys (delete_stale rmapi) w))
  /\ stops_at_failure (trace (for_each keys (delete_stale rmapi) w)).
Proof.
  revert w. induction keys as [| doc keys IH]; intros w.
  - split; [apply rm_guarded_nil | apply stops_at_failure_nil].
  - rewrite for_each_cons.
    destruct (delete_stale_turn rmapi doc w) as (G & S & U).
    destruct (delete_stale rmapi doc w) as [[u | ex] w1 t1]; cbn [trace res] in *; [| now split].
    destruct (IH w1) as [G' S'].
    destruct (for_each keys (delete_stale rmapi) w1) as [r w2 t2]; cbn [trace] in *.
    split; [now apply rm_guarded_app | apply stops_at_failure_app; eauto].
Qed.

Lemma ensure_trash_trace (w : W) :
  Forall (fun e => is_rm e = false) (trace (ensure_trash w)).
Proof.
  unfold ensure_trash, bind, call, ask, ret. repeat host_case; repeat constructor.
Qed.

Lemma no_rm_guarded (rmapi : string) (tr : list event) :
  Forall (fun e => is_rm e = false) tr -> rm_guarded rmapi tr.
Proof.
  intros Hno pre post rest r ->. apply Forall_app in Hno as [_ Hno].
  apply Forall_cons in Hno as [Hno _]. discriminate Hno.
Qed.

Lemma backup_raises (rmapi doc : string) (w : W) (ex : exn) :
  res (backup rmapi doc w) = Raise ex ->
  delete_stale rmapi doc w
  = Outcome (Raise ex) (world (backup rmapi doc w)) (trace (backup rmapi doc w))
  /\ Forall (fun e => is_rm e = false) (trace (backup rmapi doc w)).
Proof.
  unfold backup. run_script; intros [= <-]; split; try reflexivity; repeat constructor.
Qed.

(** A turn of the last loop is its backup and, when that returned, the
    [rm] and the progress line. *)
Lemma delete_stale_continues (rmapi doc : string) (w : W) :
  delete_stale rmapi doc w
  = match backup rmapi doc w with
    | Outcome (Ok _) w1 evs =>
        after evs ((RmApi_remove rmapi MENDELEY_FOLDER_IN_REMARKABLE doc ;;;
                    print ["Document removed: " ++ doc])%sync w1)
    | Outcome (Raise ex) w1 evs => Outcome (Raise ex) w1 evs
    end.
Proof. unfold backup, after. run_script; reflexivity. Qed.

Lemma backup_went_through (rmapi doc : string) (w w1 : W) (moved : string)
    (evs : list event) :
  backup rmapi doc w = Outcome (Ok moved) w1 evs ->
  exists p d1, returncode p = 0%Z /\ evs = backup_done rmapi doc p d1 moved.
Proof.
  unfold backup. run_script; intros [= <- <- <-].
  do 2 eexists. split; [apply Z.eqb_eq; eassumption | reflexivity].
Qed.

(** A turn of the last loop whose backup went through: the [rm] of the
    key is the next call. *)
Lemma delete_stale_after_backup (rmapi doc : string) (w w1 : W) (moved : string)
    (evs : list event) :
  backup rmapi doc w = Outcome (Ok moved) w1 evs ->
  exists p d1 w2 r,
    returncode p = 0%Z
    /\ evs = backup_done rmapi doc p d1 moved
    /\ popen [rmapi; "rm"; MENDELEY_FOLDER_IN_REMARKABLE ++ "/" ++ doc] w1 = (w2, r)
    /\ world (delete_stale rmapi doc w) = w2
    /\ trace (delete_stale rmapi doc w)
       = (evs ++ rm_call rmapi doc r
              :: (if failed (rm_call rmapi doc r) then []
                  else [EvPrint ("Document removed: " ++ doc)]))%list
    /\ (res (delete_stale rmapi doc w) = Ok tt <-> failed (rm_call rmapi doc r) = false).
Proof.
  intros Hb. destruct (backup_went_through rmapi doc w w1 moved evs Hb) as (p & d1 & Hp & ->).
  rewrite (delete_stale_continues rmapi doc w), Hb. unfold after. cbn [res world trace].
  unfold RmApi_remove, RmApi_run, rm_call, bind, call, print, raise, ret.
  destruct (popen _ w1) as [w2 [p' | ex]] eqn:Hrm; cbn -[String.append PyStr.join backup_done].
  - exists p, d1, w2, (Ok p'). cbn [failed].
    destruct (returncode p' =? 0)%Z eqn:Hz; cbn -[String.append PyStr.join backup_done];
      (split; [exact Hp |]); (do 4 (split; [reflexivity |])); split; congruence.
  - exists p, d1, w2, (Raise ex). cbn -[String.append PyStr.join backup_done].
    split; [exact Hp |]. do 4 (split; [reflexivity |]). split; congruence.
Qed.

(** A turn of the last loop that returned. *)
Lemma delete_stale_done (rmapi doc : string) (w : W) (u : unit) :
  res (delete_stale rmapi doc w) = Ok u -> removed_turn rmapi doc (trace (delete_stale rmapi doc w)).
Proof.
  destruct (delete_stale rmapi doc w) as [r0 w0 t0] eqn:Hrun. revert Hrun.
  run_script; intros [= <- <- <-] [=]; cbn [trace].
  do 4 eexists. split; [| split].
  3: reflexivity.
  all: apply Z.eqb_eq; eassumption.
Qed.

Lemma delete_stale_loop_done (rmapi : string) (keys : list string) (w : W) (u : unit) :
  res (for_each keys (delete_stale rmapi) w) = Ok u ->
  exists turns,
    Forall2 (removed_turn rmapi) keys turns
    /\ trace (for_each keys (delete_stale rmapi) w) = concat turns.
Proof.
  destruct u. revert w. induction keys as [| doc keys IH]; intros w.
  - intros _. exists []. split; [constructor | reflexivity].
  - rewrite for_each_cons. pose proof (delete_stale_done rmapi doc w) as Hturn.
    destruct (delete_stale rmapi doc w) as [[[] | ex] w1 t1]; cbn [res trace] in *;
      [| discriminate].
    specialize (IH w1).
    destruct (for_each keys (delete_stale rmapi) w1) as [[[] | ex] w2 t2]; cbn [res trace] in *;
      [| discriminate].
    intros _. destruct (IH eq_refl) as (turns & Hall & ->).
    exists (t1 :: turns). split; [| reflexivity].
    constructor; [now apply (Hturn tt) | exact Hall].
Qed.

(** The last pass that returned: the trash directory was seen to, then
    each key had its turn. *)
Lemma delete_pass_done (rmapi : string) (keys : list string) (w : W) (u : unit) :
  res (delete_pass rmapi keys w) = Ok u ->
  exists turns,
    Forall2 (removed_turn rmapi) keys turns
    /\ trace (delete_pass rmapi keys w) = (trace (ensure_trash w) ++ concat turns)%list.
Proof.
  unfold delete_pass, bind.
  destruct (ensure_trash w) as [[[] | ex] w1 t1]; cbn [res trace]; [| discriminate].
  pose proof (delete_stale_loop_done rmapi keys w1) as Hloop.
  destruct (for_each keys (delete_stale rmapi) w1) as [r w2 t2]; cbn [res trace] in *.
  intros Hr. destruct (Hloop u Hr) as (turns & Hall & ->).
  exists turns. split; [exact Hall | reflexivity].
Qed.

(** C2: in the last pass every [rm] sent to the tablet comes right after
    the export of the same key was downloaded and moved into the trash
    directory; a failed step is the last call of the run; when the
    download/backup step of a key raises, the run ends there with that
    exception, no [rm] issued for the key; when it went through, the [rm]
    of that key is the very next call; a loop that returns made, for each
    key in turn, the backup and then the [rm]; and so did the pass that
    returns, after it saw to the trash directory. *)
Theorem backup_before_delete (rmapi : string) (keys : list string) (w : W) :
  rm_guarded rmapi (trace (delete_pass rmapi keys w))
  /\ (forall w', stops_at_failure (trace (for_each keys (delete_stale rmapi) w')))
  /\ (forall doc rest w' ex,
        res (backup rmapi doc w') = Raise ex ->
        for_each (doc :: rest) (delete_stale rmapi) w'
          = Outcome (Raise ex) (world (backup rmapi doc w')) (trace (backup rmapi doc w'))
        /\ Forall (fun e => is_rm e = false) (trace (backup rmapi doc w')))
  /\ (forall doc w' w1 moved evs,
        backup rmapi doc w' = Outcome (Ok moved) w1 evs ->
        exists p d1 w2 r,
          returncode p = 0%Z
          /\ evs = backup_done rmapi doc p d1 moved
          /\ popen [rmapi; "rm"; MENDELEY_FOLDER_IN_REMARKABLE ++ "/" ++ doc] w1 = (w2, r)
          /\ world (delete_stale rmapi doc w') = w2
          /\ trace (delete_stale rmapi doc w')
             = (evs ++ rm_call rmapi doc r
                    :: (if failed (rm_call rmapi doc r) then []
                        else [EvPrint ("Document removed: " ++ doc)]))%list
          /\ (res (delete_stale rmapi doc w') = Ok tt <-> failed (rm_call rmapi doc r) = false))
  /\ (forall w' u,
        res (for_each keys (delete_stale rmapi) w') = Ok u ->
        exists turns,
          Forall2 (removed_turn rmapi) keys turns
          /\ trace (for_each keys (delete_stale rmapi) w') = concat turns)
  /\ (forall u,
        res (delete_pass rmapi keys w) = Ok u ->
        exists turns,
          Forall2 (removed_turn rmapi) keys turns
          /\ trace (delete_pass rmapi keys w)
             = (trace (ensure_trash w) ++ concat turns)%list).
Proof.
  split; [| split; [| split; [| split; [| split]]]].
  - unfold delete_pass, bind. pose proof (ensure_trash_trace w) as Hno.
    destruct (ensure_trash w) as [[u | ex] w1 t1]; cbn [trace] in *.
    + destruct (delete_stale_loop rmapi keys w1) as [G _].
      destruct (for_each keys (delete_stale rmapi) w1) as [r w2 t2]; cbn [trace] in *.
      apply rm_guarded_app; [now apply no_rm_guarded | exact G].
    + now apply no_rm_guarded.
  - intros w'. apply delete_stale_loop.
  - intros doc rest w' ex Hex. destruct (backup_raises rmapi doc w' ex Hex) as [E Hno].
    split; [| exact Hno]. now rewrite for_each_cons, E.
  - intros doc w' w1 moved evs. apply delete_stale_after_backup.
  - intros w' u. apply delete_stale_loop_done.
  - intros u. apply delete_pass_done.
Qed.

(** In [main] every key of the first two passes has its document, the
    last one enumerated with that key. *)
Lemma lookup_mdoc_last (mdocuments : list Document) (doc : string) (w : W) :
  doc ∈ PyDict.keys (mfiles mdocuments) ->
  exists idx mdoc,
    last_with_key mdocuments doc idx
    /\ mdocuments !! idx = Some mdoc
    /\ lookup_mdoc mdocuments (mfiles mdocuments) doc w = Outcome (Ok mdoc) w [].
Proof.
  intros Hin. apply PyDictFacts.get_is_Some in Hin as [idx Hget].
  pose proof Hget as Hlast. apply mfiles_get in Hlast.
  destruct Hlast as [(mdoc & Hm & Hk) Hlast].
  exists idx, mdoc. split; [split; eauto |]. split; [exact Hm |].
  unfold lookup_mdoc, dict_getitem, list_getitem, bind. rewrite Hget. cbn. now rewrite Hm.
Qed.

Lemma lookup_mdoc_ok (mdocuments : list Document) (doc : string) (w : W) :
  doc ∈ PyDict.keys (mfiles mdocuments) ->
  exists mdoc,
    lookup_mdoc mdocuments (mfiles mdocuments) doc w = Outcome (Ok mdoc) w []
    /\ doc_key mdoc = doc /\ mdoc ∈ mdocuments.
Proof.
  intros Hin.
  destruct (lookup_mdoc_last mdocuments doc w Hin) as (idx & mdoc & [(m & Hm & Hk) _] & Hi & Hl).
  exists mdoc. split; [exact Hl |]. split; [congruence | eapply list_elem_of_lookup_2, Hi].
Qed.

Lemma values_get (d : PyDict.t nat) (i : nat) :
  NoDup (PyDict.keys d) -> i ∈ PyDict.values d -> exists k, PyDict.get k d = Some i.
Proof.
  unfold PyDict.values, PyDict.keys.
  induction d as [| [k' v'] d IH]; cbn [map fst snd]; intros Hnd Hin; [inversion Hin |].
  apply NoDup_cons in Hnd as [Hnot Hnd]. apply elem_of_cons in Hin as [-> | Hin].
  - exists k'. cbn [PyDict.get]. now rewrite String.eqb_refl.
  - destruct (IH Hnd Hin) as [k Hk]. exists k. cbn [PyDict.get].
    destruct (String.eqb k' k) eqn:E; [| exact Hk].
    apply String.eqb_eq in E as ->. exfalso. apply Hnot.
    apply PyDictFacts.get_is_Some. eauto.
Qed.

(** C9: [mfiles] has each key once; the index stored under a key is that
    of the last document enumerated with it; an earlier document with the
    same key is the value of no key; and the document a pass works on,
    [mdocuments[mfiles[doc]]], is that last one. *)
Theorem mfiles_keeps_last_document (mdocuments : list Document) :
  NoDup (PyDict.keys (mfiles mdocuments))
  /\ (forall k idx,
        PyDict.get k (mfiles mdocuments) = Some idx <-> last_with_key mdocuments k idx)
  /\ (forall i j mi mj,
        mdocuments !! i = Some mi -> mdocuments !! j = Some mj ->
        i < j -> doc_key mi = doc_key mj ->
        PyDict.get (doc_key mj) (mfiles mdocuments) <> Some i
        /\ i ∉ PyDict.values (mfiles mdocuments))
  /\ (forall doc w,
        doc ∈ PyDict.keys (mfiles mdocuments) ->
        exists idx mdoc,
          last_with_key mdocuments doc idx
          /\ mdocuments !! idx = Some mdoc
          /\ lookup_mdoc mdocuments (mfiles mdocuments) doc w = Outcome (Ok mdoc) w []).
Proof.
  split; [apply mfiles_NoDup |]. split; [apply mfiles_get |]. split; [| apply lookup_mdoc_last].
  intros i j mi mj Hi Hj Hlt Hk.
  assert (Hno : forall k, PyDict.get k (mfiles mdocuments) <> Some i).
  { intros k Hget. apply mfiles_get in Hget as [(m & Hm & Hkm) Hlast].
    assert (m = mi) as -> by congruence.
    specialize (Hlast j mj Hj). rewrite <- Hk in Hlast.
    specialize (Hlast Hkm). lia. }
  split; [apply Hno |].
  intros Hin. apply values_get in Hin as [k Hk']; [| apply mfiles_NoDup].
  now apply (Hno k).
Qed.

Lemma download_annotated_trace (rmapi doc : string) (w : W) :
  Forall (fun e => touches_attachments e = false) (trace (download_annotated rmapi doc w)).
Proof. run_script; repeat constructor. Qed.

(** C3: when the download of a key of the "both" pass raises with the
    no-annotation text, the turn ends normally after the progress line,
    having deleted no attachment and attached nothing, and the loop goes
    on with the next key. *)
Theorem no_annotation_skip (rmapi : string) (mdocuments : list Document)
    (rfiles keys : list string) (doc : string) (w w1 : W) (ex : exn) (evs : list event) :
  doc ∈ m_and_r (mfiles mdocuments) rfiles ->
  download_annotated rmapi doc w = Outcome (Raise ex) w1 evs ->
  PyStr.contains "Failed to generate annotations" (exn_str ex) = true ->
  sync_existing rmapi mdocuments (mfiles mdocuments) doc w
    = Outcome (Ok tt) w1
        (evs ++ [EvPrint ("Document skipped: " ++ doc ++ ". No annotations yet!")])
  /\ Forall (fun e => touches_attachments e = false)
       (trace (sync_existing rmapi mdocuments (mfiles mdocuments) doc w))
  /\ sync_pass rmapi mdocuments (mfiles mdocuments) (doc :: keys) w
     = match sync_pass rmapi mdocuments (mfiles mdocuments) keys w1 with
       | Outcome r w2 t2 =>
           Outcome r w2
             ((evs ++ [EvPrint ("Document skipped: " ++ doc ++ ". No annotations yet!")]) ++ t2)
       end.
Proof.
  intros Hin Hdl Hmsg. apply elem_of_m_and_r in Hin as [Hin _].
  destruct (lookup_mdoc_ok mdocuments doc w Hin) as (mdoc & Hlook & _).
  assert (Hturn : sync_existing rmapi mdocuments (mfiles mdocuments) doc w
    = Outcome (Ok tt) w1
        (evs ++ [EvPrint ("Document skipped: " ++ doc ++ ". No annotations yet!")])%list).
  { unfold sync_existing, bind at 1. rewrite Hlook. unfold bind, attempt. rewrite Hdl.
    rewrite Hmsg. reflexivity. }
  split; [exact Hturn |]. split.
  - rewrite Hturn. cbn [trace]. apply Forall_app. split; [| repeat constructor].
    pose proof (download_annotated_trace rmapi doc w) as Hev. now rewrite Hdl in Hev.
  - unfold sync_pass. now rewrite for_each_cons, Hturn.
Qed.

Lemma download_annotated_path (rmapi doc : string) (w : W) (localpath : string) :
  res (download_annotated rmapi doc w) = Ok localpath ->
  localpath = snd (uuid4_hex w) ++ ".pdf".
Proof. run_script; intros [=]; congruence. Qed.

Lemma download_annotated_keeps_path (rmapi doc : string) (w : W) (r : result unit) :
  EvOsRemove (snd (uuid4_hex w) ++ ".pdf") r ∉ trace (download_annotated rmapi doc w).
Proof.
  run_script; intros Hin;
    repeat (apply elem_of_cons in Hin as [Hin | Hin]; [try discriminate Hin |]);
    try (now apply elem_of_nil in Hin);
    injection Hin as Hp _; symmetry in Hp; now apply zip_is_not_pdf in Hp.
Qed.

(** Case on the answer of the next Mendeley call. *)
Ltac mendeley_case :=
  match goal with
  | |- context [files_iter ?m ?w] => destruct (files_iter m w) as [? [?|?]] eqn:?
  | |- context [attach_file ?m ?p ?w] => destruct (attach_file m p w) as [? [[]|?]] eqn:?
  | |- context [file_download ?f ?d ?w] => destruct (file_download f d w) as [? [?|?]] eqn:?
  | |- context [for_each ?l ?b ?w] => destruct (for_each l b w) as [[[]|?] ? ?] eqn:?
  end; cbn -[String.append PyStr.join PyStr.contains].

(** When [rmapi] itself reports the failure, nothing was moved to the
    temporary path: the try block made two calls. *)
Lemma failed_export_writes_nothing (rmapi doc : string) (w w0 w1 : W) (hex : string)
    (p : Completed) :
  uuid4_hex w = (w0, hex) ->
  popen [rmapi; "geta"; "-a"; MENDELEY_FOLDER_IN_REMARKABLE ++ "/" ++ doc] w0 = (w1, Ok p) ->
  returncode p <> 0%Z ->
  trace (download_annotated rmapi doc w)
  = [EvUuid4 hex;
     EvPopen [rmapi; "geta"; "-a"; MENDELEY_FOLDER_IN_REMARKABLE ++ "/" ++ doc] (Ok p)]
  /\ exists ex, res (download_annotated rmapi doc w) = Raise ex.
Proof.
  intros Hu Hp Hne. apply Z.eqb_neq in Hne.
  unfold download_annotated, RmApi_download, RmApi_run, bind, call, ask, raise.
  rewrite Hu, Hp, Hne. cbn. eauto.
Qed.

(** A turn of the "both" pass, once its document is found. *)
Lemma sync_existing_run (rmapi : string) (mdocuments : list Document) (doc : string) (w : W) :
  doc ∈ PyDict.keys (mfiles mdocuments) ->
  exists mdoc,
    doc_key mdoc = doc /\ mdoc ∈ mdocuments
    /\ sync_existing rmapi mdocuments (mfiles mdocuments) doc w
       = match download_annotated rmapi doc w with
         | Outcome (Ok localpath) w1 evs =>
             match replace_attachments mdoc localpath doc w1 with
             | Outcome r w2 t2 => Outcome r w2 (evs ++ t2)%list
             end
         | Outcome (Raise ex) w1 evs =>
             if PyStr.contains "Failed to generate annotations" (exn_str ex)
             then Outcome (Ok tt) w1
                    (evs ++ [EvPrint ("Document skipped: " ++ doc ++ ". No annotations yet!")])%list
             else Outcome (Raise ex) w1 evs
         end.
Proof.
  intros Hin. destruct (lookup_mdoc_ok mdocuments doc w Hin) as (mdoc & Hlook & Hk & Hm).
  exists mdoc. split; [exact Hk |]. split; [exact Hm |].
  unfold sync_existing, bind at 1. rewrite Hlook. unfold bind, attempt.
  destruct (download_annotated rmapi doc w) as [[localpath | ex] w1 evs].
  - now destruct (replace_attachments mdoc localpath doc w1).
  - destruct (PyStr.contains _ _); [reflexivity |]. cbn. now rewrite app_nil_r.
Qed.

Lemma replace_attachments_done (mdoc : Document) (localpath doc : string) (w : W) (u : unit) :
  res (replace_attachments mdoc localpath doc w) = Ok u ->
  exists pre,
    trace (replace_attachments mdoc localpath doc w)
    = (pre ++ [EvAttachFile mdoc localpath (Ok tt);
               EvOsRemove localpath (Ok tt);
               EvPrint ("Document synced: " ++ doc)])%list.
Proof.
  unfold replace_attachments, bind, call, print.
  repeat first [mendeley_case | host_case]; intros [=].
  eexists (_ :: _). reflexivity.
Qed.

(** C6, as the code has it: a turn of the "both" pass that ends normally
    either replaced the attachments, and then its last calls are the
    attach, the removal of the temporary file and the progress line; or it
    took the no-annotation skip, and then it issued no removal of the
    temporary file at all. *)
Theorem temp_file_removed_after_replace (rmapi : string) (mdocuments : list Document)
    (rfiles : list string) (doc : string) (w : W) (u : unit) :
  doc ∈ m_and_r (mfiles mdocuments) rfiles ->
  res (sync_existing rmapi mdocuments (mfiles mdocuments) doc w) = Ok u ->
  (exists mdoc pre,
      res (download_annotated rmapi doc w) = Ok (snd (uuid4_hex w) ++ ".pdf")
      /\ trace (sync_existing rmapi mdocuments (mfiles mdocuments) doc w)
         = (pre ++ [EvAttachFile mdoc (snd (uuid4_hex w) ++ ".pdf") (Ok tt);
                    EvOsRemove (snd (uuid4_hex w) ++ ".pdf") (Ok tt);
                    EvPrint ("Document synced: " ++ doc)])%list)
  \/ (exists ex,
        res (download_annotated rmapi doc w) = Raise ex
        /\ PyStr.contains "Failed to generate annotations" (exn_str ex) = true
        /\ trace (sync_existing rmapi mdocuments (mfiles mdocuments) doc w)
           = (trace (download_annotated rmapi doc w)
              ++ [EvPrint ("Document skipped: " ++ doc ++ ". No annotations yet!")])%list
        /\ forall r, EvOsRemove (snd (uuid4_hex w) ++ ".pdf") r
                     ∉ trace (sync_existing rmapi mdocuments (mfiles mdocuments) doc w)).
Proof.
  intros Hin. apply elem_of_m_and_r in Hin as [Hin _].
  destruct (sync_existing_run rmapi mdocuments doc w Hin) as (mdoc & _ & _ & ->).
  pose proof (download_annotated_path rmapi doc w) as Hpath.
  pose proof (download_annotated_keeps_path rmapi doc w) as Hkeep.
  destruct (download_annotated rmapi doc w) as [[localpath | ex] w1 evs];
    cbn [res trace] in *.
  - rewrite <- (Hpath localpath eq_refl). clear Hpath Hkeep. intros Hok. left.
    pose proof (replace_attachments_done mdoc localpath doc w1 u) as Hdone.
    destruct (replace_attachments mdoc localpath doc w1) as [r w2 t2]; cbn [res trace] in *.
    destruct (Hdone Hok) as [pre ->]. exists mdoc, (evs ++ pre)%list.
    split; [reflexivity | now rewrite app_assoc].
  - destruct (PyStr.contains _ _) eqn:Hmsg; [| discriminate]. intros _. right.
    exists ex. cbn [trace]. do 3 (split; [first [exact Hmsg | reflexivity] |]).
    intros r Hr. apply elem_of_app in Hr as [Hr | Hr]; [now apply Hkeep in Hr |].
    apply list_elem_of_singleton in Hr. discriminate Hr.
Qed.





Lemma RmApi_ls_trace (self : string) (parent : option string) (tag : string) (w : W) :
  Forall (fun e => read_only e = true) (trace (RmApi_ls self parent tag w)).
Proof.
  unfold RmApi_ls, RmApi_run, lift, bind, call, raise, ret.
  destruct (falsy parent); repeat host_case;
    repeat match goal with
      | |- context [decode_utf8 ?s] => destruct (decode_utf8 s); cbn
      | |- context [select_entries ?t ?e] => destruct (select_entries t e); cbn
      end;
    repeat constructor.
Qed.

(** C7: when the configured folder is missing in Mendeley or on the
    tablet, [main] raises, and every call it made is a listing or a
    progress line: nothing was deleted, attached, uploaded, removed or
    written. *)
Theorem main_aborts_when_folder_missing (w : W) :
  source_folder_missing w \/ target_folder_missing w ->
  exists ex,
    res (main w) = Raise ex
    /\ (exn_str ex = "Cannot find remarkable folder in mendeley!"
        \/ exn_str ex = "Cannot find mendeley folder in remarkable!")
    /\ Forall (fun e => read_only e = true) (trace (main w)).
Proof.
  intros [(w1 & w2 & folders & Hs & Hf & Hfind)
         | (w1 & w2 & folders & mfolder & w3 & mdocuments & topfolders
            & Hs & Hf & Hfind & Hd & Hls & Hmem)];
    unfold main, bind, call; rewrite Hs, Hf, Hfind.
  - eexists. split; [reflexivity |]. split; [now left |]. repeat constructor.
  - rewrite Hd. pose proof (RmApi_ls_trace RmApi_default None "[d]" w3) as Hro.
    unfold RmApi_subfolders in *.
    destruct (RmApi_ls RmApi_default None "[d]" w3) as [r w4 t]; cbn [res trace] in *.
    subst r. rewrite Hmem. eexists. split; [reflexivity |]. split; [now right |].
    cbn [trace negb]. repeat (apply Forall_cons; split; [reflexivity |]).
    apply Forall_app. split; [exact Hro | repeat constructor].
Qed.

End Effects.

(** ** The scripted runs *)

Module Runs.

Import Scripted.

Example keys_of_docs : mfiles docs = [("A---1", 0); ("B---2", 1)].
Proof. reflexivity. Qed.

Example diff_of_docs :
  m_and_r (mfiles docs) on_tablet = ["B---2"]
  /\ m_minus_r (mfiles docs) on_tablet = ["A---1"]
  /\ r_minus_m (mfiles docs) on_tablet = ["C---3"].
Proof. repeat split. Qed.

(** The scenario of the three partitions: A is pushed, B is synced back,
    C is backed up and removed. *)
Example steady_run :
  res (main (H := host steady) 0) = Ok tt
  /\ printed (trace (main (H := host steady) 0))
     = ["Document synced: B---2"; "<File 1-main>"; "Document added: A---1";
        "Document removed: C---3";
        "Sync complete! Refresh your mendeley and remarkable apps."].
Proof. split; reflexivity. Qed.

(** C6, as stated, fails: B is on both sides and has no annotation layer;
    its turn ends normally on the skip and removes no file. *)
Lemma skip_path_removes_nothing :
  res (sync_existing (H := host unannotated) rmapi docs (mfiles docs) "B---2" 0) = Ok tt
  /\ In (EvPrint "Document skipped: B---2. No annotations yet!")
        (trace (sync_existing (H := host unannotated) rmapi docs (mfiles docs) "B---2" 0))
  /\ forall path r,
       ~ In (EvOsRemove path r)
            (trace (sync_existing (H := host unannotated) rmapi docs (mfiles docs) "B---2" 0)).
Proof.
  split; [reflexivity |]. split; [vm_compute; tauto |].
  intros path r. vm_compute. intros [E | [E | [E | []]]]; discriminate E.
Qed.

(** The skip is also taken when the failure comes after the export was
    moved to the temporary path and its text carries the words through the
    key: the file stays. *)
Example skip_after_export_was_moved :
  trace (sync_existing (H := host zip_missing) rmapi [paper_f] (mfiles [paper_f])
           "Failed to generate annotations---9" 0)
  = [EvUuid4 "a3f0";
     EvPopen ["./rmapi"; "geta"; "-a"; "Mendeley/Failed to generate annotations---9"]
       (Ok (finished EmptyString EmptyString 0));
     EvPathExists "Failed to generate annotations---9-annotations.pdf" true;
     EvMove "Failed to generate annotations---9-annotations.pdf" "a3f0.pdf" (Ok "a3f0.pdf");
     EvOsRemove "Failed to generate annotations---9.zip"
       (Raise (Exception
          "[Errno 2] No such file or directory: 'Failed to generate annotations---9.zip'"));
     EvPrint "Document skipped: Failed to generate annotations---9. No annotations yet!"].
Proof. reflexivity. Qed.

Lemma in_both : "B---2" ∈ m_and_r (mfiles docs) on_tablet.
Proof. vm_compute. apply list_elem_of_here. Defined.


Lemma canonicalize_injective_in_id_witness :
  canonicalize "A." "1" = canonicalize "A." "1"
  /\ canonicalize "A." "1" <> canonicalize "A." "2".
Proof.
  split.
  - apply (canonicalize_injective_in_id "A." "1" "1"). reflexivity.
  - apply (canonicalize_injective_in_id "A." "1" "2"). discriminate.
Defined.

Lemma backup_before_delete_witness :
  (res (backup (H := host unannotated) rmapi "B---2" 0)
     = Raise (Exception
                "RmAPI ('./rmapi', 'geta', '-a', 'Mendeley/B---2') command failed: b'Failed to generate annotations'")
   /\ trace (for_each ["B---2"; "C---3"] (delete_stale (H := host unannotated) rmapi) 0)
      = [EvPopen ["./rmapi"; "geta"; "-a"; "Mendeley/B---2"]
           (Ok (finished EmptyString "Failed to generate annotations" 1))])
  /\ (backup (H := host steady) rmapi "C---3" 0
        = Outcome (Ok "trash/C---3.pdf") 0
            (backup_done rmapi "C---3" (finished EmptyString EmptyString 0)
               "C---3.pdf" "trash/C---3.pdf")
      /\ res (delete_stale (H := host steady) rmapi "C---3" 0) = Ok tt
      /\ trace (delete_stale (H := host steady) rmapi "C---3" 0)
         = [EvPopen ["./rmapi"; "geta"; "-a"; "Mendeley/C---3"]
              (Ok (finished EmptyString EmptyString 0));
            EvPathExists "C---3-annotations.pdf" true;
            EvMove "C---3-annotations.pdf" "C---3.pdf" (Ok "C---3.pdf");
            EvOsRemove "C---3.zip" (Ok tt);
            EvMove "C---3.pdf" "trash/C---3.pdf" (Ok "trash/C---3.pdf");
            EvPopen ["./rmapi"; "rm"; "Mendeley/C---3"] (Ok (finished EmptyString EmptyString 0));
            EvPrint "Document removed: C---3"])
  /\ (res (for_each ["B---2"; "C---3"] (delete_stale (H := host steady) rmapi) 0) = Ok tt
      /\ exists turns,
           Forall2 (removed_turn rmapi) ["B---2"; "C---3"] turns
           /\ trace (for_each ["B---2"; "C---3"] (delete_stale (H := host steady) rmapi) 0)
              = concat turns)
  /\ (res (delete_pass (H := host steady) rmapi ["C---3"] 0) = Ok tt
      /\ exists turns,
           Forall2 (removed_turn rmapi) ["C---3"] turns
           /\ trace (delete_pass (H := host steady) rmapi ["C---3"] 0)
              = (EvPathExists "trash" true :: concat turns)%list).
Proof.
  split; [| split; [| split]].
  - split; [reflexivity |].
    destruct (backup_before_delete (H := host unannotated) rmapi ["B---2"; "C---3"] 0)
      as (_ & _ & Hraise & _).
    destruct (Hraise "B---2" ["C---3"] 0 _ eq_refl) as [E _].
    rewrite E. reflexivity.
  - split; [reflexivity |].
    destruct (backup_before_delete (H := host steady) rmapi ["C---3"] 0)
      as (_ & _ & _ & Hnext & _).
    destruct (Hnext "C---3" 0 0 "trash/C---3.pdf"
                (backup_done rmapi "C---3" (finished EmptyString EmptyString 0)
                   "C---3.pdf" "trash/C---3.pdf") eq_refl)
      as (p & d1 & w2 & r & _ & _ & Hrm & _ & Htrace & Hres).
    change ((0, Ok (finished EmptyString EmptyString 0)) = (w2, r)) in Hrm.
    injection Hrm as <- <-.
    split; [apply Hres; reflexivity | rewrite Htrace; reflexivity].
  - split; [reflexivity |].
    destruct (backup_before_delete (H := host steady) rmapi ["B---2"; "C---3"] 0)
      as (_ & _ & _ & _ & Hloop & _).
    apply (Hloop 0 tt). reflexivity.
  - split; [reflexivity |].
    destruct (backup_before_delete (H := host steady) rmapi ["C---3"] 0)
      as (_ & _ & _ & _ & _ & Hpass).
    apply (Hpass tt). reflexivity.
Defined.

Lemma no_annotation_skip_witness :
  "B---2" ∈ m_and_r (mfiles docs) on_tablet
  /\ sync_existing (H := host unannotated) rmapi docs (mfiles docs) "B---2" 0
     = Outcome (Ok tt) 1
         [EvUuid4 "a3f0";
          EvPopen ["./rmapi"; "geta"; "-a"; "Mendeley/B---2"]
            (Ok (finished EmptyString "Failed to generate annotations" 1));
          EvPrint "Document skipped: B---2. No annotations yet!"].
Proof.
  split; [exact in_both |].
  edestruct (no_annotation_skip (H := host unannotated) rmapi docs on_tablet [] "B---2" 0)
    as (E & _ & _); [exact in_both | reflexivity | reflexivity |].
  rewrite E. reflexivity.
Defined.

Lemma temp_file_removed_after_replace_witness :
  "B---2" ∈ m_and_r (mfiles docs) on_tablet
  /\ res (sync_existing (H := host steady) rmapi docs (mfiles docs) "B---2" 0) = Ok tt
  /\ exists mdoc pre,
       trace (sync_existing (H := host steady) rmapi docs (mfiles docs) "B---2" 0)
       = (pre ++ [EvAttachFile mdoc "a3f0.pdf" (Ok tt);
                  EvOsRemove "a3f0.pdf" (Ok tt);
                  EvPrint "Document synced: B---2"])%list.
Proof.
  split; [exact in_both |]. split; [reflexivity |].
  destruct (temp_file_removed_after_replace (H := host steady) rmapi docs on_tablet
              "B---2" 0 tt in_both eq_refl)
    as [(mdoc & pre & _ & E) | (ex & Hraise & _)]; [| discriminate Hraise].
  exists mdoc, pre. exact E.
Defined.


Lemma main_aborts_when_folder_missing_witness :
  (source_folder_missing (H := host no_source_folder) 0
   \/ target_folder_missing (H := host no_source_folder) 0)
  /\ exists ex, res (main (H := host no_source_folder) 0) = Raise ex.
Proof.
  assert (Hmiss : source_folder_missing (H := host no_source_folder) 0
                  \/ target_folder_missing (H := host no_source_folder) 0).
  { left. exists 0, 0, (folders no_source_folder). repeat split. }
  split; [exact Hmiss |].
  destruct (main_aborts_when_folder_missing (H := host no_source_folder) 0 Hmiss)
    as (ex & Hres & _).
  exists ex. exact Hres.
Defined.

(** The same on the tablet side. *)
Example no_target_folder_aborts :
  target_folder_missing (H := host no_target_folder) 0
  /\ res (main (H := host no_target_folder) 0)
     = Raise (Exception "Cannot find mendeley folder in remarkable!").
Proof.
  split; [| reflexivity].
  exists 0, 0, (folders no_target_folder),
    {| folder_id := "f1"; folder_name := "Remarkable"; folder_parent := None |},
    0, (documents no_target_folder), ["Books"].
  repeat split.
Qed.

Lemma mfiles_keeps_last_document_witness :
  mfiles [paper_a; paper_b; {| doc_id := "1"; doc_title := "A" |}] = [("A---1", 2); ("B---2", 1)]
  /\ 0 ∉ PyDict.values (mfiles [paper_a; paper_b; {| doc_id := "1"; doc_title := "A" |}]).
Proof.
  split; [reflexivity |].
  destruct (mfiles_keeps_last_document (H := host steady)
              [paper_a; paper_b; {| doc_id := "1"; doc_title := "A" |}])
    as (_ & _ & Hearlier & _).
  apply (Hearlier 0 2 paper_a {| doc_id := "1"; doc_title := "A" |});
    [reflexivity | reflexivity | lia | reflexivity].
Defined.

End Runs.


(** * Further properties *)

(** ** The identity codec and the key table *)

Lemma length_list_ascii (s : string) : length (list_ascii_of_string s) = String.length s.
Proof. induction s as [| c s IH]; cbn; congruence. Qed.

Lemma append_inj_same_length (a1 a2 b1 b2 : string) :
  String.length b1 = String.length b2 -> a1 ++ b1 = a2 ++ b2 -> a1 = a2 /\ b1 = b2.
Proof.
  intros Hlen E. apply (f_equal list_ascii_of_string) in E. rewrite !list_ascii_app in E.
  apply app_inj_2 in E as [E1 E2]; [| now rewrite !length_list_ascii].
  split; now apply list_ascii_inj.
Qed.

Lemma canonicalize_same_length (t1 t2 id1 id2 : string) :
  String.length id1 = String.length id2 ->
  canonicalize t1 id1 = canonicalize t2 id2 -> id1 = id2.
Proof.
  unfold canonicalize. intros Hlen E.
  apply append_inj_same_length in E as [_ E]; [now apply string_app_inv_head in E |].
  rewrite <- !length_list_ascii, !list_ascii_app, !length_app. now rewrite !length_list_ascii, Hlen.
Qed.

(** X1: two keys built with ids of the same length are equal only if the
    sanitized titles and the ids are. *)
Theorem canonicalize_injective_for_ids_of_one_length (t1 t2 id1 id2 : string) :
  String.length id1 = String.length id2 ->
  canonicalize t1 id1 = canonicalize t2 id2 ->
  to_filename t1 false = to_filename t2 false /\ id1 = id2.
Proof.
  unfold canonicalize. intros Hlen E.
  apply append_inj_same_length in E as [Ht E].
  - split; [exact Ht |]. now apply string_app_inv_head in E.
  - rewrite <- !length_list_ascii, !list_ascii_app, !length_app.
    now rewrite !length_list_ascii, Hlen.
Qed.

Lemma set_fresh {V} (k : string) (v : V) (d : PyDict.t V) :
  k ∉ PyDict.keys d -> PyDict.set k v d = (d ++ [(k, v)])%list.
Proof.
  unfold PyDict.keys. induction d as [| [k' v'] d IH]; cbn [PyDict.set map fst app]; intros Hk.
  - reflexivity.
  - apply not_elem_of_cons in Hk as [Hne Hk].
    destruct (String.eqb_spec k' k) as [-> | _]; [contradiction |]. now rewrite IH.
Qed.

Lemma keys_app {V} (d1 d2 : PyDict.t V) :
  PyDict.keys (d1 ++ d2)%list = (PyDict.keys d1 ++ PyDict.keys d2)%list.
Proof. apply map_app. Qed.

Lemma values_app {V} (d1 d2 : PyDict.t V) :
  PyDict.values (d1 ++ d2)%list = (PyDict.values d1 ++ PyDict.values d2)%list.
Proof. apply map_app. Qed.

Lemma mfiles_of_distinct_keys (mdocuments : list Document) :
  NoDup (map doc_key mdocuments) ->
  PyDict.keys (mfiles mdocuments) = map doc_key mdocuments
  /\ PyDict.values (mfiles mdocuments) = seq 0 (length mdocuments).
Proof.
  induction mdocuments as [| m l IH] using rev_ind; intros Hnd; [now split |].
  rewrite map_app in Hnd. apply NoDup_app in Hnd as (Hl & Hfresh & _).
  destruct (IH Hl) as [Hk Hv]. rewrite mfiles_snoc, set_fresh.
  - rewrite keys_app, values_app, Hk, Hv, map_app, length_app, seq_app. now split.
  - rewrite Hk. intros Hin. apply (Hfresh _ Hin). cbn. apply list_elem_of_here.
Qed.

Lemma mfiles_length_le (mdocuments : list Document) :
  length (mfiles mdocuments) <= length mdocuments.
Proof.
  induction mdocuments as [| m l IH] using rev_ind; [reflexivity |].
  rewrite mfiles_snoc, length_app. cbn [length].
  assert (Hset : forall (d : PyDict.t nat) k v, length (PyDict.set k v d) <= S (length d)).
  { intros d k v. induction d as [| [k' v'] d IHd]; cbn [PyDict.set length]; [lia |].
    destruct (String.eqb k' k); cbn [length]; lia. }
  specialize (Hset (mfiles l) (doc_key m) (length l)). lia.
Qed.

(** X2: [mfiles] has one entry per document, in the order of the documents
    and with their indices, exactly when the keys of the documents are
    pairwise different; otherwise it has fewer entries than documents. *)
Theorem mfiles_keeps_every_document_iff_keys_distinct (mdocuments : list Document) :
  (NoDup (map doc_key mdocuments) ->
   PyDict.keys (mfiles mdocuments) = map doc_key mdocuments
   /\ PyDict.values (mfiles mdocuments) = seq 0 (length mdocuments))
  /\ (length (mfiles mdocuments) = length mdocuments <-> NoDup (map doc_key mdocuments))
  /\ length (mfiles mdocuments) <= length mdocuments.
Proof.
  split; [apply mfiles_of_distinct_keys |]. split; [| apply mfiles_length_le].
  split.
  - intros Hlen.
    assert (Hsub : PyDict.keys (mfiles mdocuments) ⊆+ map doc_key mdocuments).
    { apply NoDup_submseteq; [apply mfiles_NoDup |].
      intros k Hk. apply mfiles_keys in Hk as (m & Hm & <-). now apply list_elem_of_fmap_2. }
    apply submseteq_length_Permutation in Hsub.
    + rewrite <- Hsub. apply mfiles_NoDup.
    + unfold PyDict.keys. rewrite !length_map. lia.
  - intros Hnd. destruct (mfiles_of_distinct_keys mdocuments Hnd) as [Hk _].
    apply (f_equal length) in Hk. unfold PyDict.keys in Hk. now rewrite !length_map in Hk.
Qed.

Lemma doc_keys_distinct (mdocuments : list Document) :
  NoDup (map doc_id mdocuments) ->
  (forall m m', m ∈ mdocuments -> m' ∈ mdocuments ->
                String.length (doc_id m) = String.length (doc_id m')) ->
  NoDup (map doc_key mdocuments).
Proof.
  induction mdocuments as [| m l IH]; cbn [map]; intros Hnd Hlen; [apply NoDup_nil_2 |].
  apply NoDup_cons in Hnd as [Hnot Hnd]. apply NoDup_cons. split.
  - intros Hin. apply list_elem_of_fmap in Hin as (m' & Hk & Hm'). apply Hnot.
    unfold doc_key in Hk.
    apply canonicalize_same_length in Hk.
    + rewrite Hk. now apply list_elem_of_fmap_2.
    + apply Hlen; [apply list_elem_of_here | now apply list_elem_of_further].
  - apply IH; [exact Hnd |]. intros a b Ha Hb. apply Hlen; now apply list_elem_of_further.
Qed.

(** X3: documents whose ids are pairwise different and of one length (the
    ids Mendeley gives) all get their own key: none is dropped from
    [mfiles], whatever their titles. *)
Theorem mfiles_keeps_every_document_of_distinct_ids (mdocuments : list Document) :
  NoDup (map doc_id mdocuments) ->
  (forall m m', m ∈ mdocuments -> m' ∈ mdocuments ->
                String.length (doc_id m) = String.length (doc_id m')) ->
  PyDict.keys (mfiles mdocuments) = map doc_key mdocuments
  /\ PyDict.values (mfiles mdocuments) = seq 0 (length mdocuments).
Proof.
  intros Hnd Hlen. apply mfiles_of_distinct_keys. now apply doc_keys_distinct.
Qed.

(** ** The three lists of the diff *)

Lemma List_filter_partition {A} (p : A -> bool) (l : list A) :
  (List.filter p l ++ List.filter (fun x => negb (p x)) l)%list ≡ₚ l.
Proof.
  induction l as [| x l IH]; [reflexivity |].
  cbn [List.filter]. destruct (p x); cbn [negb app].
  - now rewrite IH.
  - rewrite <- Permutation_middle. now rewrite IH.
Qed.

Lemma List_filter_sublist {A} (p : A -> bool) (l : list A) : sublist (List.filter p l) l.
Proof.
  induction l as [| x l IH]; [constructor |].
  cbn [List.filter]. destruct (p x); now constructor.
Qed.

Lemma List_filter_all {A} (p : A -> bool) (l : list A) :
  (forall x, x ∈ l -> p x = true) -> List.filter p l = l.
Proof.
  induction l as [| x l IH]; intros Hall; [reflexivity |].
  cbn [List.filter]. rewrite (Hall x) by apply list_elem_of_here.
  rewrite IH; [reflexivity |]. intros y Hy. apply Hall. now apply list_elem_of_further.
Qed.

Lemma List_filter_none {A} (p : A -> bool) (l : list A) :
  (forall x, x ∈ l -> p x = false) -> List.filter p l = [].
Proof.
  induction l as [| x l IH]; intros Hall; [reflexivity |].
  cbn [List.filter]. rewrite (Hall x) by apply list_elem_of_here.
  apply IH. intros y Hy. apply Hall. now apply list_elem_of_further.
Qed.

(** X4: the keys of the first two passes, put end to end, are the keys of
    [mfiles] with none repeated and none missing, each list in the order
    of [mfiles]; the keys of the last pass are taken from [rfiles] in its
    order, repetitions kept. *)
Theorem diff_handles_each_source_key_once (mdocuments : list Document) (rfiles : list string) :
  (m_and_r (mfiles mdocuments) rfiles ++ m_minus_r (mfiles mdocuments) rfiles)%list
    ≡ₚ PyDict.keys (mfiles mdocuments)
  /\ NoDup (m_and_r (mfiles mdocuments) rfiles ++ m_minus_r (mfiles mdocuments) rfiles)
  /\ sublist (m_and_r (mfiles mdocuments) rfiles) (PyDict.keys (mfiles mdocuments))
  /\ sublist (m_minus_r (mfiles mdocuments) rfiles) (PyDict.keys (mfiles mdocuments))
  /\ sublist (r_minus_m (mfiles mdocuments) rfiles) rfiles.
Proof.
  assert (Hperm : (m_and_r (mfiles mdocuments) rfiles
                   ++ m_minus_r (mfiles mdocuments) rfiles)%list
                  ≡ₚ PyDict.keys (mfiles mdocuments)) by apply List_filter_partition.
  split; [exact Hperm |]. split; [rewrite Hperm; apply mfiles_NoDup |].
  repeat split; apply List_filter_sublist.
Qed.

(** X5: with nothing on the tablet every source key is pushed and nothing
    else happens; with no document in Mendeley every tablet file is to be
    removed; and when the tablet holds exactly the source keys, all of them
    are synced back and there is nothing to push or remove. *)
Theorem diff_edge_cases (mf : PyDict.t nat) (rfiles : list string) :
  (m_and_r mf [] = [] /\ m_minus_r mf [] = PyDict.keys mf /\ r_minus_m mf [] = [])
  /\ (m_and_r [] rfiles = [] /\ m_minus_r [] rfiles = [] /\ r_minus_m [] rfiles = rfiles)
  /\ (rfiles ≡ₚ PyDict.keys mf ->
      m_and_r mf rfiles = PyDict.keys mf /\ m_minus_r mf rfiles = [] /\ r_minus_m mf rfiles = []).
Proof.
  split; [| split].
  - unfold m_and_r, m_minus_r, r_minus_m. repeat split.
    + now apply List_filter_none.
    + now apply List_filter_all.
  - unfold m_and_r, m_minus_r, r_minus_m. repeat split. now apply List_filter_all.
  - intros Hperm. unfold m_and_r, m_minus_r, r_minus_m, PyDict.has_key. repeat split.
    + apply List_filter_all. intros k Hk. apply mem_true. now rewrite Hperm.
    + apply List_filter_none. intros k Hk. apply negb_false_iff, mem_true. now rewrite Hperm.
    + apply List_filter_none. intros k Hk. apply negb_false_iff, mem_true. now rewrite <- Hperm.
Qed.

(** ** Reading a listing *)

Lemma split_scan_field (sep : ascii) (f rest : string) (cur : list ascii) :
  ~ In sep (list_ascii_of_string f) ->
  PyStr.split_scan sep cur (f ++ String sep rest)
  = string_of_list_ascii (rev cur ++ list_ascii_of_string f) :: PyStr.split_scan sep [] rest.
Proof.
  revert cur. induction f as [| c f IH]; intros cur Hno.
  - rewrite append_nil. cbn [PyStr.split_scan list_ascii_of_string].
    now rewrite Ascii.eqb_refl, app_nil_r.
  - rewrite append_cons. cbn [PyStr.split_scan list_ascii_of_string] in *.
    destruct (Ascii.eqb_spec c sep) as [-> | Hne]; [exfalso; apply Hno; now left |].
    rewrite IH by (intros Hin; apply Hno; now right).
    cbn [rev]. now rewrite <- app_assoc.
Qed.

Lemma split_scan_last (sep : ascii) (f : string) (cur : list ascii) :
  ~ In sep (list_ascii_of_string f) ->
  PyStr.split_scan sep cur f = [string_of_list_ascii (rev cur ++ list_ascii_of_string f)].
Proof.
  revert cur. induction f as [| c f IH]; intros cur Hno.
  - cbn [PyStr.split_scan list_ascii_of_string]. now rewrite app_nil_r.
  - cbn [PyStr.split_scan list_ascii_of_string] in *.
    destruct (Ascii.eqb_spec c sep) as [-> | Hne]; [exfalso; apply Hno; now left |].
    rewrite IH by (intros Hin; apply Hno; now right).
    cbn [rev]. now rewrite <- app_assoc.
Qed.

Lemma split_field (sep : ascii) (f rest : string) :
  ~ In sep (list_ascii_of_string f) ->
  PyStr.split sep (f ++ String sep rest) = f :: PyStr.split sep rest.
Proof.
  intros Hno. unfold PyStr.split. rewrite split_scan_field by exact Hno.
  cbn [rev app]. now rewrite string_of_list_ascii_of_string.
Qed.

Lemma split_last (sep : ascii) (f : string) :
  ~ In sep (list_ascii_of_string f) -> PyStr.split sep f = [f].
Proof.
  intros Hno. unfold PyStr.split. rewrite split_scan_last by exact Hno.
  cbn [rev app]. now rewrite string_of_list_ascii_of_string.
Qed.

Lemma string_append_assoc (a b c : string) : (a ++ b) ++ c = a ++ (b ++ c).
Proof.
  induction a as [| x a IH]; rewrite ?append_nil, ?append_cons; [reflexivity | now rewrite IH].
Qed.

Lemma tag_plain (dir : bool) : plain_name (tag_of dir).
Proof.
  destruct dir; split; cbn; intros H; repeat (destruct H as [H | H]; [discriminate H |]);
    exact H.
Qed.

Lemma listing_lines (entries : list (bool * string)) :
  (forall e, e ∈ entries -> plain_name (snd e)) ->
  map (PyStr.split tab) (PyStr.split newline (listing_text entries))
  = (map (fun e => [tag_of (fst e); snd e]) entries ++ [[EmptyString]])%list.
Proof.
  induction entries as [| [dir name] es IH]; intros Hplain; [reflexivity |].
  assert (Hname : plain_name name) by (apply (Hplain (dir, name)), list_elem_of_here).
  cbn [listing_text]. unfold listing_row. cbn [fst snd].
  replace ((tag_of dir ++ String tab name ++ String newline EmptyString) ++ listing_text es)
    with ((tag_of dir ++ String tab name) ++ String newline (listing_text es)).
  2:{ rewrite !string_append_assoc. reflexivity. }
  rewrite split_field.
  - cbn [map app]. rewrite IH by (intros e He; apply Hplain; now apply list_elem_of_further).
    f_equal. rewrite split_field by apply tag_plain. f_equal. apply split_last, Hname.
  - rewrite list_ascii_app. cbn [list_ascii_of_string]. intros Hin.
    apply in_app_or in Hin as [Hin | [Hin | Hin]].
    + now apply (tag_plain dir) in Hin.
    + discriminate Hin.
    + now apply Hname in Hin.
Qed.

Lemma select_listing (dir : bool) (entries : list (bool * string)) :
  select_entries (tag_of dir)
    (map (fun e => [tag_of (fst e); snd e]) entries ++ [[EmptyString]])%list
  = Ok (names_of dir entries).
Proof.
  unfold names_of. induction entries as [| [d name] es IH].
  - now destruct dir.
  - cbn [map app select_entries List.filter fst snd]. rewrite IH.
    destruct d, dir; reflexivity.
Qed.

Lemma parse_listing_text (dir : bool) (entries : list (bool * string)) :
  (forall e, e ∈ entries -> plain_name (snd e)) ->
  parse_listing (tag_of dir) (listing_text entries) = Ok (names_of dir entries).
Proof.
  intros Hplain. unfold parse_listing. rewrite listing_lines by exact Hplain.
  apply select_listing.
Qed.

Lemma append_nil_r (s : string) : s ++ EmptyString = s.
Proof. induction s as [| c s IH]; rewrite ?append_nil, ?append_cons; congruence. Qed.

Lemma string_of_list_ascii_snoc (l : list ascii) (c : ascii) :
  string_of_list_ascii (l ++ [c]) = string_of_list_ascii l ++ String c EmptyString.
Proof.
  induction l as [| x l IH]; cbn [app string_of_list_ascii]; [reflexivity |].
  now rewrite IH, append_cons.
Qed.

Lemma split_scan_nonempty (sep : ascii) (cur : list ascii) (s : string) :
  PyStr.split_scan sep cur s <> [].
Proof.
  revert cur. induction s as [| c s IH]; intros cur; cbn [PyStr.split_scan]; [discriminate |].
  destruct (Ascii.eqb c sep); [discriminate | apply IH].
Qed.

(** [sep.join(s.split(sep))] is [s]. *)
Lemma join_split_scan (sep : ascii) (cur : list ascii) (s : string) :
  PyStr.join (String sep EmptyString) (PyStr.split_scan sep cur s)
  = string_of_list_ascii (rev cur) ++ s.
Proof.
  revert cur. induction s as [| c s IH]; intros cur; cbn [PyStr.split_scan].
  - cbn [PyStr.join]. now rewrite append_nil_r.
  - destruct (Ascii.eqb_spec c sep) as [-> | Hne].
    + specialize (IH []). pose proof (split_scan_nonempty sep [] s) as Hne.
      destruct (PyStr.split_scan sep [] s) as [| y l]; [contradiction |].
      cbn [PyStr.join] in *. rewrite IH. cbn [rev string_of_list_ascii].
      now rewrite append_nil.
    + rewrite IH. cbn [rev]. rewrite string_of_list_ascii_snoc, string_append_assoc.
      now rewrite append_cons, append_nil.
Qed.

Lemma join_split (sep : ascii) (s : string) :
  PyStr.join (String sep EmptyString) (PyStr.split sep s) = s.
Proof. unfold PyStr.split. now rewrite join_split_scan. Qed.

Lemma select_entries_raises (tag : string) (entries : list (list string)) :
  (forall e, e ∈ entries -> e <> []) ->
  (forall ex, select_entries tag entries = Raise ex -> ex = IndexError)
  /\ (select_entries tag entries = Raise IndexError <-> [tag] ∈ entries).
Proof.
  induction entries as [| e es IH]; intros Hne.
  - split; [discriminate |]. split; [discriminate | intros Hin; inversion Hin].
  - destruct IH as [IH1 IH2]; [intros x Hx; apply Hne; now apply list_elem_of_further |].
    destruct e as [| e0 tl]; [now destruct (Hne [] (list_elem_of_here _ _)) |].
    cbn [select_entries]. rewrite elem_of_cons.
    destruct (String.eqb_spec e0 tag) as [-> | Hdiff].
    + destruct tl as [| e1 tl].
      * split; [now intros ex [= <-] |]. split; [now left | reflexivity].
      * destruct (select_entries tag es) as [l | ex0] eqn:Hsel.
        -- split; [discriminate |]. split; [discriminate |].
           intros [[=] | Hin]. apply IH2 in Hin. discriminate Hin.
        -- pose proof (IH1 ex0 eq_refl) as ->. split; [now intros ex [= <-] |].
           split; [intros _; right; now apply IH2 | reflexivity].
    + split; [exact IH1 |]. rewrite IH2. split; [now right |].
      intros [[= ->] | Hin]; [contradiction | exact Hin].
Qed.

Lemma parse_listing_raises (tag text : string) :
  ~ In tab (list_ascii_of_string tag) ->
  (forall ex, parse_listing tag text = Raise ex -> ex = IndexError)
  /\ (parse_listing tag text = Raise IndexError <-> tag ∈ PyStr.split newline text).
Proof.
  intros Htag. unfold parse_listing.
  destruct (select_entries_raises tag (map (PyStr.split tab) (PyStr.split newline text)))
    as [H1 H2].
  { intros e He. apply list_elem_of_fmap in He as (line & -> & _). apply split_scan_nonempty. }
  split; [exact H1 |]. rewrite H2. split.
  - intros Hin. apply list_elem_of_fmap in Hin as (line & Hsplit & Hline).
    apply (f_equal (PyStr.join (String tab EmptyString))) in Hsplit.
    rewrite join_split in Hsplit. cbn [PyStr.join] in Hsplit. now subst line.
  - intros Hin. apply list_elem_of_fmap. exists tag. split; [| exact Hin].
    symmetry. now apply split_last.
Qed.

Section Listings.

Context {W : Type} `{Host W}.

Lemma RmApi_ls_run (self : string) (parent : option string) (tag : string) (w w1 : W)
    (p : Completed) (text : string) :
  popen (ls_args self parent) w = (w1, Ok p) ->
  returncode p = 0%Z ->
  decode_utf8 (stdout p) = Ok text ->
  RmApi_ls self parent tag w
  = Outcome (parse_listing tag text) w1 [EvPopen (ls_args self parent) (Ok p)].
Proof.
  unfold ls_args. intros Hp Hz Hd. apply Z.eqb_eq in Hz.
  unfold RmApi_ls, RmApi_run, bind, call, lift, raise, ret.
  destruct (falsy parent); rewrite Hp, Hz; cbn; rewrite Hd; cbn;
    fold (parse_listing tag text); now destruct (parse_listing tag text).
Qed.

(** X6: when [rmapi ls] exits with status 0 and prints one row per entry
    (tag, tab, name, end of line), [subfolders] returns the names of the
    folders and [files] the names of the files, in the order printed;
    no row printed gives the empty list. *)
Theorem listing_is_read_back (self : string) (parent : option string)
    (entries : list (bool * string)) (w w1 : W) (p : Completed) :
  (forall e, e ∈ entries -> plain_name (snd e)) ->
  popen (ls_args self parent) w = (w1, Ok p) ->
  returncode p = 0%Z ->
  decode_utf8 (stdout p) = Ok (listing_text entries) ->
  RmApi_subfolders self parent w
    = Outcome (Ok (names_of true entries)) w1 [EvPopen (ls_args self parent) (Ok p)]
  /\ RmApi_files self parent w
    = Outcome (Ok (names_of false entries)) w1 [EvPopen (ls_args self parent) (Ok p)].
Proof.
  intros Hplain Hp Hz Hd. unfold RmApi_subfolders, RmApi_files.
  rewrite !(RmApi_ls_run self parent _ w w1 p (listing_text entries)) by assumption.
  now rewrite (parse_listing_text true), (parse_listing_text false).
Qed.

(** X7: a row that is the tag alone, with no tab after it, makes the
    listing raise [IndexError]; with status 0 and decodable output this is
    the only way [subfolders] and [files] raise. *)
Theorem listing_raises_on_bare_tag (self : string) (parent : option string)
    (w w1 : W) (p : Completed) (text : string) :
  popen (ls_args self parent) w = (w1, Ok p) ->
  returncode p = 0%Z ->
  decode_utf8 (stdout p) = Ok text ->
  (forall ex, res (RmApi_subfolders self parent w) = Raise ex
              <-> ex = IndexError /\ "[d]" ∈ PyStr.split newline text)
  /\ (forall ex, res (RmApi_files self parent w) = Raise ex
                 <-> ex = IndexError /\ "[f]" ∈ PyStr.split newline text).
Proof.
  intros Hp Hz Hd. unfold RmApi_subfolders, RmApi_files.
  rewrite !(RmApi_ls_run self parent _ w w1 p text) by assumption. cbn [res].
  split; intros ex.
  - destruct (parse_listing_raises "[d]" text) as [H1 H2].
    { cbn. intros Hin. repeat (destruct Hin as [Hin | Hin]; [discriminate Hin |]). exact Hin. }
    split.
    + intros Hr. pose proof (H1 ex Hr) as ->. split; [reflexivity | now apply H2].
    + intros [-> Hin]. now apply H2.
  - destruct (parse_listing_raises "[f]" text) as [H1 H2].
    { cbn. intros Hin. repeat (destruct Hin as [Hin | Hin]; [discriminate Hin |]). exact Hin. }
    split.
    + intros Hr. pose proof (H1 ex Hr) as ->. split; [reflexivity | now apply H2].
    + intros [-> Hin]. now apply H2.
Qed.

End Listings.

(** ** What a run never does *)

Section Traces.

Context {W : Type} `{Host W}.

Variable P : event -> Prop.

Lemma Forall_trace_bind {A B} (m : M W A) (f : A -> M W B) (w : W) :
  Forall P (trace (m w)) ->
  (forall a w', Forall P (trace (f a w'))) ->
  Forall P (trace (bind m f w)).
Proof.
  intros Hm Hf. unfold bind. destruct (m w) as [[a | ex] w1 t1]; cbn [trace] in *; [| exact Hm].
  specialize (Hf a w1). destruct (f a w1) as [r w2 t2]; cbn [trace] in *.
  apply Forall_app. now split.
Qed.

Lemma Forall_trace_call {A} (op : W -> W * result A) (ev : result A -> event) (w : W) :
  (forall r, P (ev r)) -> Forall P (trace (call op ev w)).
Proof. intros Hev. unfold call. destruct (op w) as [w1 r]. cbn. repeat constructor. apply Hev. Qed.

Lemma Forall_trace_ask {A} (op : W -> W * A) (ev : A -> event) (w : W) :
  (forall a, P (ev a)) -> Forall P (trace (ask op ev w)).
Proof. intros Hev. unfold ask. destruct (op w) as [w1 r]. cbn. repeat constructor. apply Hev. Qed.

Lemma Forall_trace_print (args : list string) (w : W) :
  (forall line, P (EvPrint line)) -> Forall P (trace (print args w)).
Proof. intros Hev. cbn. repeat constructor. apply Hev. Qed.

Lemma Forall_trace_attempt {A} (m : M W A) (w : W) :
  Forall P (trace (m w)) -> Forall P (trace (attempt m w)).
Proof. unfold attempt. now destruct (m w). Qed.

Lemma Forall_trace_for_each {A} (l : list A) (body : A -> M W unit) (w : W) :
  (forall x w', x ∈ l -> Forall P (trace (body x w'))) ->
  Forall P (trace (for_each l body w)).
Proof.
  revert w. induction l as [| x l IH]; intros w Hbody; [constructor |].
  cbn [for_each]. apply Forall_trace_bind.
  - apply Hbody, list_elem_of_here.
  - intros _ w'. apply IH. intros y w'' Hy. apply Hbody. now apply list_elem_of_further.
Qed.

Lemma Forall_trace_RmApi_run (self : string) (args : list string) (w : W) :
  (forall r, P (EvPopen (self :: args) r)) -> Forall P (trace (RmApi_run self args w)).
Proof.
  intros Hev. unfold RmApi_run. apply Forall_trace_bind; [now apply Forall_trace_call |].
  intros p w'. destruct (negb _); constructor.
Qed.

Lemma Forall_trace_RmApi_download (self rfolder rfile outpath : string) (w : W) :
  (forall r, P (EvPopen [self; "geta"; "-a"; rfolder ++ "/" ++ rfile] r)) ->
  (forall r, P (EvPathExists (rfile ++ "-annotations.pdf") r)) ->
  (forall r, P (EvMove (rfile ++ "-annotations.pdf") outpath r)) ->
  (forall r, P (EvOsRemove (rfile ++ ".zip") r)) ->
  Forall P (trace (RmApi_download self rfolder rfile outpath w)).
Proof.
  intros H1 H2 H3 H4. unfold RmApi_download.
  apply Forall_trace_bind; [now apply Forall_trace_RmApi_run |]. intros _ w1.
  apply Forall_trace_bind; [now apply Forall_trace_ask |]. intros found w2.
  apply Forall_trace_bind; [destruct (negb found); constructor |]. intros _ w3.
  apply Forall_trace_bind; [now apply Forall_trace_call |]. intros _ w4.
  now apply Forall_trace_call.
Qed.

End Traces.


Ltac trace_all :=
  repeat match goal with
    | |- Forall _ (trace (bind _ _ _)) => apply Forall_trace_bind; [| intros ? ?]
    | |- Forall _ (trace (call _ _ _)) => apply Forall_trace_call; intros ?
    | |- Forall _ (trace (ask _ _ _)) => apply Forall_trace_ask; intros ?
    | |- Forall _ (trace (print _ _)) => apply Forall_trace_print; intros ?
    | |- Forall _ (trace (attempt _ _)) => apply Forall_trace_attempt
    | |- Forall _ (trace (for_each _ _ _)) => apply Forall_trace_for_each; intros ? ? ?
    | |- Forall _ (trace (ret _ _)) => constructor
    | |- Forall _ (trace (raise _ _)) => constructor
    | |- Forall _ (trace ((if ?b then _ else _) _)) => destruct b
    | |- Forall _ (trace (match ?r with _ => _ end _)) => destruct r
    end.

Ltac unfold_script :=
  unfold passes, sync_pass, push_pass, delete_pass, ensure_trash, sync_existing, push_new,
    delete_stale, push_attachment, first_attachment, replace_attachments, download_annotated,
    lookup_mdoc, dict_getitem, list_getitem, RmApi_download, RmApi_upload, RmApi_remove,
    RmApi_run, no_path;
  cbv zeta.

Section Separation.

Context {W : Type} `{Host W}.

Lemma sync_pass_calls (rmapi : string) (mdocuments : list Document) (mf : PyDict.t nat)
    (keys : list string) (w : W) :
  Forall (fun e => is_put e = false /\ is_rm e = false)
    (trace (sync_pass rmapi mdocuments mf keys w)).
Proof. unfold_script; trace_all; split; reflexivity. Qed.

Lemma push_pass_calls (rmapi : string) (mdocuments : list Document) (mf : PyDict.t nat)
    (keys : list string) (w : W) :
  Forall (fun e => touches_attachments e = false /\ is_geta e = false /\ is_rm e = false)
    (trace (push_pass rmapi mdocuments mf keys w)).
Proof. unfold_script; trace_all; repeat split; reflexivity. Qed.

Lemma delete_pass_calls (rmapi : string) (keys : list string) (w : W) :
  Forall (fun e => mendeley_call e = false /\ is_put e = false)
    (trace (delete_pass rmapi keys w)).
Proof. unfold_script; trace_all; split; reflexivity. Qed.

(** X8: the three passes keep to their own calls.  The first never
    uploads to the tablet nor removes from it; the second never changes an
    attachment, exports or removes; the third never calls Mendeley nor
    uploads. *)
Theorem passes_keep_apart (rmapi : string) (mdocuments : list Document) (mf : PyDict.t nat)
    (keys : list string) (w : W) :
  Forall (fun e => is_put e = false /\ is_rm e = false)
    (trace (sync_pass rmapi mdocuments mf keys w))
  /\ Forall (fun e => touches_attachments e = false /\ is_geta e = false /\ is_rm e = false)
       (trace (push_pass rmapi mdocuments mf keys w))
  /\ Forall (fun e => mendeley_call e = false /\ is_put e = false)
       (trace (delete_pass rmapi keys w)).
Proof.
  split; [| split].
  - apply sync_pass_calls.
  - apply push_pass_calls.
  - apply delete_pass_calls.
Qed.

End Separation.

Section MainRun.

Context {W : Type} `{Host W}.

Lemma RmApi_ls_single (self : string) (parent : option string) (tag : string) (w : W) :
  exists r, trace (RmApi_ls self parent tag w) = [EvPopen (ls_args self parent) r].
Proof.
  unfold RmApi_ls, RmApi_run, ls_args, bind, call, lift, raise, ret.
  destruct (falsy parent); destruct (popen _ w) as [w1 [p | ex]]; cbn; eauto;
    destruct (returncode p =? 0)%Z; cbn; eauto;
    destruct (decode_utf8 (stdout p)); cbn; eauto;
    destruct (select_entries _ _); cbn; eauto.
Qed.

Lemma listings_read_only folders mfolder mdocuments r1 r2 :
  Forall (fun e => read_only e = true) (listings folders mfolder mdocuments r1 r2).
Proof. repeat constructor. Qed.

Lemma main_cases (w : W) :
  (exists ex w' t, main w = Outcome (Raise ex) w' t /\ Forall (fun e => read_only e = true) t)
  \/ (exists folders mfolder mdocuments rfiles r1 r2 w5,
        main w = after (listings folders mfolder mdocuments r1 r2)
                   (passes RmApi_default mdocuments rfiles w5)).
Proof.
  destruct (main w) as [r0 w0 t0] eqn:Hrun. revert Hrun. unfold main.
  unfold bind at 1, call at 1. destruct (get_session w) as [w1 [[] | ex]];
    [| intros [= <- <- <-]; left; do 3 eexists; split; [reflexivity | repeat constructor]].
  unfold bind at 1, call at 1. destruct (get_folders w1) as [w2 [folders | ex]];
    [| intros [= <- <- <-]; left; do 3 eexists; split; [reflexivity | repeat constructor]].
  destruct (find_folder REMARKABLE_FOLDER_IN_MENDELEY folders) as [mfolder |];
    [| intros [= <- <- <-]; left; do 3 eexists; split; [reflexivity | repeat constructor]].
  unfold bind at 1, call at 1. destruct (folder_documents mfolder w2) as [w3 [mdocuments | ex]];
    [| intros [= <- <- <-]; left; do 3 eexists; split; [reflexivity | repeat constructor]].
  unfold bind at 1, RmApi_subfolders.
  destruct (RmApi_ls_single RmApi_default None "[d]" w3) as [r1 Ht1].
  destruct (RmApi_ls RmApi_default None "[d]" w3) as [[topfolders | ex] w4 t1];
    cbn [trace] in Ht1; subst t1;
    [| intros [= <- <- <-]; left; do 3 eexists; split; [reflexivity | repeat constructor]].
  destruct (PyStr.mem MENDELEY_FOLDER_IN_REMARKABLE topfolders); cbn [negb];
    [| intros [= <- <- <-]; left; do 3 eexists; split; [reflexivity | repeat constructor]].
  unfold bind at 1, RmApi_files.
  destruct (RmApi_ls_single RmApi_default (Some MENDELEY_FOLDER_IN_REMARKABLE) "[f]" w4)
    as [r2 Ht2].
  destruct (RmApi_ls RmApi_default (Some MENDELEY_FOLDER_IN_REMARKABLE) "[f]" w4)
    as [[rfiles | ex] w5 t2];
    cbn [trace] in Ht2; subst t2;
    [| intros [= <- <- <-]; left; do 3 eexists; split; [reflexivity | repeat constructor]].
  intros Hrun. right. exists folders, mfolder, mdocuments, rfiles, r1, r2, w5.
  rewrite <- Hrun. unfold after, passes.
  destruct (bind _ _ w5) as [r w6 t]. reflexivity.
Qed.

(** A listing of the tablet is the one call of [rmapi ls]; it leaves the
    world that call left. *)
Lemma RmApi_ls_answer (self : string) (parent : option string) (tag : string) (w w1 : W)
    (r : result Completed) :
  popen (ls_args self parent) w = (w1, r) ->
  RmApi_ls self parent tag w
  = Outcome (res (RmApi_ls self parent tag w)) w1 [EvPopen (ls_args self parent) r].
Proof.
  unfold RmApi_ls, RmApi_run, ls_args, bind, call, lift, raise, ret.
  destruct (falsy parent); intros ->; destruct r as [p | ex]; cbn; try reflexivity;
    destruct (returncode p =? 0)%Z; cbn; try reflexivity;
    destruct (decode_utf8 (stdout p)); cbn; try reflexivity;
    destruct (select_entries _ _); reflexivity.
Qed.

(** The run of [main] once its five listings answered. *)
Lemma main_after_listings (w : W) folders mfolder mdocuments rfiles r1 r2 w5 :
  listings_answered w folders mfolder mdocuments rfiles r1 r2 w5 ->
  main w = after (listings folders mfolder mdocuments r1 r2)
             (passes RmApi_default mdocuments rfiles w5).
Proof.
  intros (w1 & w2 & w3 & w4 & topfolders
          & Hs & Hf & Hfind & Hd & Hp1 & Hr1 & Hmem & Hp2 & Hr2).
  unfold RmApi_subfolders in Hr1. unfold RmApi_files in Hr2.
  unfold main.
  unfold bind at 1, call at 1. rewrite Hs. cbv beta iota.
  unfold bind at 1, call at 1. rewrite Hf. cbv beta iota.
  rewrite Hfind.
  unfold bind at 1, call at 1. rewrite Hd. cbv beta iota.
  unfold bind at 1, RmApi_subfolders.
  rewrite (RmApi_ls_answer _ _ _ _ _ _ Hp1), Hr1. cbv beta iota.
  rewrite Hmem. cbn [negb].
  unfold bind at 1, RmApi_files.
  rewrite (RmApi_ls_answer _ _ _ _ _ _ Hp2), Hr2. cbv beta iota.
  unfold after, passes.
  destruct (bind _ _ w5) as [r w6 t]. reflexivity.
Qed.

Ltac raised_read_only :=
  intros [= <- <- <-]; cbn [res world trace]; split; [reflexivity | repeat constructor].

(** The run of [main] when a listing failed. *)
Lemma main_listing_failed (w : W) (ex : exn) :
  listing_failed w ex ->
  res (main w) = Raise ex /\ Forall (fun e => read_only e = true) (trace (main w)).
Proof.
  intros [(w1 & Hs)
         | [(w1 & w2 & Hs & Hf)
         | [((w1 & w2 & folders & Hs & Hf & Hfind) & ->)
         | [(w1 & w2 & folders & mfolder & w3 & Hs & Hf & Hfind & Hd)
         | [(w1 & w2 & folders & mfolder & w3 & mdocuments & Hs & Hf & Hfind & Hd & Hr1)
         | [((w1 & w2 & folders & mfolder & w3 & mdocuments & topfolders
              & Hs & Hf & Hfind & Hd & Hr1 & Hmem) & ->)
         | (w1 & w2 & folders & mfolder & w3 & mdocuments & topfolders
            & Hs & Hf & Hfind & Hd & Hr1 & Hmem & Hr2)]]]]]];
    destruct (main w) as [r0 w0 t0] eqn:Hrun; revert Hrun; unfold main;
    unfold bind at 1, call at 1; rewrite Hs; cbv beta iota;
    try solve [raised_read_only];
    unfold bind at 1, call at 1; rewrite Hf; cbv beta iota;
    try solve [raised_read_only];
    rewrite Hfind;
    try solve [raised_read_only];
    unfold bind at 1, call at 1; rewrite Hd; cbv beta iota;
    try solve [raised_read_only];
    unfold bind at 1; unfold RmApi_subfolders in *;
    destruct (RmApi_ls_single RmApi_default None "[d]" w3) as [r1 Ht1];
    destruct (RmApi_ls RmApi_default None "[d]" w3) as [q1 w4 t1];
    cbn [res world trace] in *; subst q1 t1;
    try solve [raised_read_only];
    rewrite Hmem; cbn [negb];
    try solve [raised_read_only];
    unfold bind at 1; unfold RmApi_files in *;
    destruct (RmApi_ls_single RmApi_default (Some MENDELEY_FOLDER_IN_REMARKABLE) "[f]" w4)
      as [r2 Ht2];
    destruct (RmApi_ls RmApi_default (Some MENDELEY_FOLDER_IN_REMARKABLE) "[f]" w4)
      as [q2 w5 t2];
    cbn [res world trace] in *; subst q2 t2;
    raised_read_only.
Qed.

(** X9: [main] changes nothing before the passes start. When its five
    listings answer (session, folders, documents of the configured folder,
    top-level folders and files of the tablet) and both folders are found,
    its run is those five calls, with these answers, followed by the three
    passes on the documents and the files they returned, from the world
    the last listing left. When a listing raises, the earlier ones having
    answered, or a folder is missing, it raises that exception having made
    only listings and progress lines. *)
Theorem main_lists_then_passes (w : W) :
  (forall folders mfolder mdocuments rfiles r1 r2 w5,
      listings_answered w folders mfolder mdocuments rfiles r1 r2 w5 ->
      main w = after (listings folders mfolder mdocuments r1 r2)
                 (passes RmApi_default mdocuments rfiles w5))
  /\ (forall ex,
        listing_failed w ex ->
        res (main w) = Raise ex
        /\ Forall (fun e => read_only e = true) (trace (main w))).
Proof.
  split.
  - intros folders mfolder mdocuments rfiles r1 r2 w5. apply main_after_listings.
  - intros ex. apply main_listing_failed.
Qed.

End MainRun.

Lemma read_only_is_no_change (e : event) :
  read_only e = true ->
  is_rm e = false /\ is_put e = false /\ is_geta e = false /\ touches_attachments e = false.
Proof.
  destruct e as [| | | args r | | | | | | | | | |]; try discriminate; try (now repeat split).
  destruct args as [| self [| cmd rest]]; try discriminate. cbn.
  intros ->%String.eqb_eq. now repeat split.
Qed.

Section Safety.

Context {W : Type} `{Host W}.



Lemma passes_trace_parts (rmapi : string) (mdocuments : list Document) (rfiles : list string)
    (w : W) :
  exists t1 t2 t3,
    trace (passes rmapi mdocuments rfiles w) = (t1 ++ t2 ++ t3)%list
    /\ Forall (fun e => is_put e = false /\ is_rm e = false) t1
    /\ Forall (fun e => touches_attachments e = false /\ is_rm e = false) t2
    /\ Forall (fun e => touches_attachments e = false /\ is_put e = false) t3.
Proof.
  unfold passes.
  pose proof (sync_pass_calls rmapi mdocuments (mfiles mdocuments)
                (m_and_r (mfiles mdocuments) rfiles) w) as H1.
  unfold bind at 1.
  destruct (sync_pass _ _ _ _ w) as [[[] | ex] w1 t1]; cbn [trace] in *.
  2:{ exists t1, [], []. rewrite !app_nil_r. repeat split; [exact H1 | constructor ..]. }
  pose proof (push_pass_calls rmapi mdocuments (mfiles mdocuments)
                (m_minus_r (mfiles mdocuments) rfiles) w1) as H2.
  unfold bind at 1.
  destruct (push_pass _ _ _ _ w1) as [[[] | ex] w2 t2]; cbn [trace] in *.
  2:{ exists t1, t2, []. rewrite !app_nil_r. repeat split; [exact H1 | | constructor].
      eapply Forall_impl; [exact H2 |]. cbn. tauto. }
  assert (H3 : Forall (fun e => touches_attachments e = false /\ is_put e = false)
                 (trace ((delete_pass rmapi (r_minus_m (mfiles mdocuments) rfiles) ;;;
                          print ["Sync complete! Refresh your mendeley and remarkable apps."])%sync
                           w2))).
  { unfold_script; trace_all; now split. }
  destruct (bind _ _ w2) as [r w3 t3]; cbn [trace] in *.
  exists t1, t2, t3. repeat split; [exact H1 | | exact H3].
  eapply Forall_impl; [exact H2 |]. cbn. tauto.
Qed.

(** X11: the passes come in their order in every run of [main]: once a
    file was uploaded to the tablet no attachment is changed any more, and
    once a file was removed from the tablet nothing is uploaded and no
    attachment is changed any more. *)
Theorem main_runs_the_passes_in_order (w : W) (pre post : list event) (e : event) :
  trace (main w) = (pre ++ e :: post)%list ->
  (is_put e = true -> Forall (fun e' => touches_attachments e' = false) post)
  /\ (is_rm e = true ->
      Forall (fun e' => touches_attachments e' = false /\ is_put e' = false) post).
Proof.
  intros Htr.
  assert (Hin : e ∈ trace (main w)).
  { rewrite Htr. apply elem_of_app. right. apply list_elem_of_here. }
  destruct (main_cases w)
    as [(ex & w' & t & Hrun & Hro) | (folders & mfolder & mds & rfiles & r1 & r2 & w5 & Hrun)].
  { rewrite Hrun in Hin. cbn [trace] in Hin. rewrite Forall_forall in Hro.
    apply Hro, read_only_is_no_change in Hin as (Hr & Hp & _). split; congruence. }
  rewrite Hrun in Htr. unfold after in Htr. cbn [trace] in Htr.
  destruct (passes_trace_parts RmApi_default mds rfiles w5) as (t1 & t2 & t3 & Ht & H1 & H2 & H3).
  rewrite Ht in Htr. clear Ht.
  pose proof (listings_read_only folders mfolder mds r1 r2) as Hro.
  apply app_split in Htr as [(post0 & E & _) | (pre0 & -> & Htr)].
  { rewrite E in Hro. apply Forall_app in Hro as [_ Hro]. apply Forall_cons in Hro as [Hro _].
    apply read_only_is_no_change in Hro as (Hr & Hp & _). split; congruence. }
  apply app_split in Htr as [(post1 & E & ->) | (pre1 & -> & Htr)].
  { rewrite E in H1. apply Forall_app in H1 as [_ H1]. apply Forall_cons in H1 as [[Hp Hr] _].
    split; congruence. }
  apply app_split in Htr as [(post2 & E & ->) | (pre2 & -> & Htr)].
  - rewrite E in H2. apply Forall_app in H2 as [_ H2]. apply Forall_cons in H2 as [[_ Hr] H2].
    split; [| congruence]. intros _. apply Forall_app. split.
    + eapply Forall_impl; [exact H2 |]. cbn. tauto.
    + eapply Forall_impl; [exact H3 |]. cbn. tauto.
  - rewrite Htr in H3. apply Forall_app in H3 as [_ H3]. apply Forall_cons in H3 as [[_ Hp] H3].
    split; [congruence |]. intros _. exact H3.
Qed.

End Safety.

(** ** Errors of the tablet tool and of the passes *)

Section Errors.

Context {W : Type} `{Host W}.

(** X12: a non-zero exit status of [rmapi] is never passed over: [_run]
    raises, with the arguments and the error output in the text, after that
    one call, and so do [upload], [remove], [download], [subfolders] and
    [files]. *)
Theorem rmapi_failure_raises (self : string) (w w1 : W) (p : Completed) :
  returncode p <> 0%Z ->
  (forall args,
      popen (self :: args) w = (w1, Ok p) ->
      RmApi_run self args w = Outcome (Raise (rmapi_error self args p)) w1
                                [EvPopen (self :: args) (Ok p)])
  /\ (forall inpath rfolder,
        popen [self; "put"; inpath; rfolder] w = (w1, Ok p) ->
        RmApi_upload self inpath rfolder w
        = Outcome (Raise (rmapi_error self ["put"; inpath; rfolder] p)) w1
            [EvPopen [self; "put"; inpath; rfolder] (Ok p)])
  /\ (forall rfolder rfile,
        popen [self; "rm"; rfolder ++ "/" ++ rfile] w = (w1, Ok p) ->
        RmApi_remove self rfolder rfile w
        = Outcome (Raise (rmapi_error self ["rm"; rfolder ++ "/" ++ rfile] p)) w1
            [EvPopen [self; "rm"; rfolder ++ "/" ++ rfile] (Ok p)])
  /\ (forall rfolder rfile outpath,
        popen [self; "geta"; "-a"; rfolder ++ "/" ++ rfile] w = (w1, Ok p) ->
        RmApi_download self rfolder rfile outpath w
        = Outcome (Raise (rmapi_error self ["geta"; "-a"; rfolder ++ "/" ++ rfile] p)) w1
            [EvPopen [self; "geta"; "-a"; rfolder ++ "/" ++ rfile] (Ok p)])
  /\ (forall parent tag,
        popen (ls_args self parent) w = (w1, Ok p) ->
        RmApi_ls self parent tag w
        = Outcome (Raise (rmapi_error self (tail (ls_args self parent)) p)) w1
            [EvPopen (ls_args self parent) (Ok p)]).
Proof.
  intros Hne%Z.eqb_neq.
  assert (Hrun : forall args,
             popen (self :: args) w = (w1, Ok p) ->
             RmApi_run self args w = Outcome (Raise (rmapi_error self args p)) w1
                                       [EvPopen (self :: args) (Ok p)]).
  { intros args Hp. unfold RmApi_run, bind, call. rewrite Hp. cbn -[String.append].
    now rewrite Hne. }
  split; [exact Hrun |]. split; [| split; [| split]].
  - intros inpath rfolder Hp. unfold RmApi_upload, bind. now rewrite (Hrun _ Hp).
  - intros rfolder rfile Hp. unfold RmApi_remove, bind. now rewrite (Hrun _ Hp).
  - intros rfolder rfile outpath Hp. unfold RmApi_download, bind at 1. now rewrite (Hrun _ Hp).
  - intros parent tag. unfold RmApi_ls, ls_args, bind at 1.
    destruct (falsy parent); intros Hp; now rewrite (Hrun _ Hp).
Qed.

(** X13: a download that returns made exactly four calls, in this order:
    the export with status 0, the check that found the exported file, its
    move to [outpath], the removal of the zip.  When the exported file is
    not there it raises, naming the remote path, and moves nothing. *)
Theorem download_outcomes (self rfolder rfile outpath : string) (w : W) :
  (forall u,
      res (RmApi_download self rfolder rfile outpath w) = Ok u ->
      exists p moved,
        returncode p = 0%Z
        /\ trace (RmApi_download self rfolder rfile outpath w)
           = [EvPopen [self; "geta"; "-a"; rfolder ++ "/" ++ rfile] (Ok p);
              EvPathExists (rfile ++ "-annotations.pdf") true;
              EvMove (rfile ++ "-annotations.pdf") outpath (Ok moved);
              EvOsRemove (rfile ++ ".zip") (Ok tt)])
  /\ (forall w1 w2 p,
        popen [self; "geta"; "-a"; rfolder ++ "/" ++ rfile] w = (w1, Ok p) ->
        returncode p = 0%Z ->
        os_path_exists (rfile ++ "-annotations.pdf") w1 = (w2, false) ->
        RmApi_download self rfolder rfile outpath w
        = Outcome (Raise (Exception ("File not downloaded from remarkable cloud: "
                                     ++ rfolder ++ "/" ++ rfile)))
            w2
            [EvPopen [self; "geta"; "-a"; rfolder ++ "/" ++ rfile] (Ok p);
             EvPathExists (rfile ++ "-annotations.pdf") false]).
Proof.
  split.
  - intros u. destruct (RmApi_download self rfolder rfile outpath w) as [r0 w0 t0] eqn:Hrun.
    revert Hrun. unfold RmApi_download, RmApi_run, bind, call, ask, raise, ret.
    destruct (popen _ w) as [w1 [p | ex]]; [| now intros [= <- <- <-]].
    destruct (returncode p =? 0)%Z eqn:Hz; cbn [negb]; [| now intros [= <- <- <-]].
    destruct (os_path_exists _ w1) as [w2 [|]]; cbn [negb]; [| now intros [= <- <- <-]].
    destruct (shutil_move _ _ w2) as [w3 [moved | ex]]; [| now intros [= <- <- <-]].
    destruct (os_remove _ w3) as [w4 [[] | ex]]; intros [= <- <- <-]; [| discriminate].
    intros _. exists p, moved. split; [now apply Z.eqb_eq | reflexivity].
  - intros w1 w2 p Hp Hz%Z.eqb_eq He.
    unfold RmApi_download, RmApi_run, bind, call, ask, raise, ret.
    rewrite Hp. cbn -[String.append]. rewrite Hz. cbn -[String.append]. now rewrite He.
Qed.

Lemma delete_files_run (files : list MFile) (w : W) :
  (forall u,
      res (for_each files (fun file_ => call (file_delete file_) (EvFileDelete file_)) w) = Ok u ->
      trace (for_each files (fun file_ => call (file_delete file_) (EvFileDelete file_)) w)
      = map (fun f => EvFileDelete f (Ok tt)) files)
  /\ (forall ex,
        res (for_each files (fun file_ => call (file_delete file_) (EvFileDelete file_)) w)
          = Raise ex ->
        exists done f rest,
          files = (done ++ f :: rest)%list
          /\ trace (for_each files (fun file_ => call (file_delete file_) (EvFileDelete file_)) w)
             = (map (fun f => EvFileDelete f (Ok tt)) done ++ [EvFileDelete f (Raise ex)])%list).
Proof.
  revert w. induction files as [| f files IH]; intros w.
  - split; [reflexivity | discriminate].
  - rewrite for_each_cons. unfold call at 1 3 5 7.
    destruct (file_delete f w) as [w1 [[] | ex0]].
    + destruct (IH w1) as [IHok IHraise].
      destruct (for_each files _ w1) as [[u0 | ex0] w2 t2]; cbn [res trace] in *.
      * split; [| discriminate]. intros u _. cbn [map app]. f_equal. now apply (IHok u0).
      * split; [discriminate |]. intros ex [= <-].
        destruct (IHraise ex0 eq_refl) as (done & f' & rest & -> & ->).
        now exists (f :: done), f', rest.
    + cbn [res trace]. split; [discriminate |]. intros ex [= <-]. now exists [], f, files.
Qed.

(** X14: a replacement that returns listed the attachments, deleted every
    one of them in that order, attached the export once, removed the
    temporary file and printed the progress line, and made no other call. *)
Theorem replace_attachments_deletes_all (mdoc : Document) (localpath doc : string) (w : W)
    (u : unit) :
  res (replace_attachments mdoc localpath doc w) = Ok u ->
  exists files,
    trace (replace_attachments mdoc localpath doc w)
    = (EvFilesIter mdoc (Ok files)
       :: map (fun f => EvFileDelete f (Ok tt)) files
       ++ [EvAttachFile mdoc localpath (Ok tt);
           EvOsRemove localpath (Ok tt);
           EvPrint ("Document synced: " ++ doc)])%list.
Proof.
  destruct (replace_attachments mdoc localpath doc w) as [r0 w0 t0] eqn:Hrun. revert Hrun.
  unfold replace_attachments. unfold bind at 1, call at 1.
  destruct (files_iter mdoc w) as [w1 [files | ex]]; [| now intros [= <- <- <-]].
  unfold bind at 1. destruct (delete_files_run files w1) as [Hok _].
  destruct (for_each files _ w1) as [[[] | ex] w2 t2]; cbn [res trace] in *;
    [| now intros [= <- <- <-]].
  rewrite (Hok tt eq_refl). unfold bind, call, print.
  destruct (attach_file mdoc localpath w2) as [w3 [[] | ex]]; [| now intros [= <- <- <-]].
  destruct (os_remove localpath w3) as [w4 [[] | ex]]; intros [= <- <- <-]; [| discriminate].
  intros _. exists files. reflexivity.
Qed.

(** X15: when the replacement raises, the temporary file is not removed
    and no progress line is printed; and when it is the deletion of an
    attachment that failed, the attachments listed before it are already
    deleted and nothing is attached in their place. *)
Theorem replace_attachments_failure (mdoc : Document) (localpath doc : string) (w : W)
    (ex : exn) :
  res (replace_attachments mdoc localpath doc w) = Raise ex ->
  (forall path, EvOsRemove path (Ok tt) ∉ trace (replace_attachments mdoc localpath doc w))
  /\ (forall line, EvPrint line ∉ trace (replace_attachments mdoc localpath doc w))
  /\ (forall f ex',
        EvFileDelete f (Raise ex') ∈ trace (replace_attachments mdoc localpath doc w) ->
        exists files done rest,
          files = (done ++ f :: rest)%list
          /\ trace (replace_attachments mdoc localpath doc w)
             = (EvFilesIter mdoc (Ok files)
                :: map (fun f => EvFileDelete f (Ok tt)) done
                ++ [EvFileDelete f (Raise ex)])%list).
Proof.
  destruct (replace_attachments mdoc localpath doc w) as [r0 w0 t0] eqn:Hrun. revert Hrun.
  unfold replace_attachments. unfold bind at 1, call at 1.
  destruct (files_iter mdoc w) as [w1 [files | ex0]].
  2:{ intros [= <- <- <-] [= <-].
      split; [intros path | split; [intros line | intros f ex']]; intros Hin;
        repeat (apply elem_of_cons in Hin as [Hin | Hin]; [discriminate Hin |]);
        now apply elem_of_nil in Hin. }
  unfold bind at 1. destruct (delete_files_run files w1) as [Hok Hraise].
  destruct (for_each files _ w1) as [[[] | ex0] w2 t2]; cbn [res trace] in *.
  - rewrite (Hok tt eq_refl). clear Hok Hraise. unfold bind, call, print.
    assert (Hdel : forall e, e ∈ map (fun f => EvFileDelete f (Ok tt)) files ->
                             exists f, e = EvFileDelete f (Ok tt)).
    { intros e He. apply list_elem_of_fmap in He as (f & -> & _). eauto. }
    destruct (attach_file mdoc localpath w2) as [w3 [[] | ex1]];
      [destruct (os_remove localpath w3) as [w4 [[] | ex1]] |];
      intros [= <- <- <-] [=]; cbn [trace app];
      (split; [intros path | split; [intros line | intros f ex']]); intros Hin;
      apply elem_of_cons in Hin as [Hin | Hin]; try discriminate Hin;
      apply elem_of_app in Hin as [Hin | Hin];
      try (apply Hdel in Hin as [f0 Hin]; discriminate Hin);
      repeat (apply elem_of_cons in Hin as [Hin | Hin]; [discriminate Hin |]);
      now apply elem_of_nil in Hin.
  - destruct (Hraise ex0 eq_refl) as (done & f & rest & -> & ->). clear Hok Hraise.
    assert (Hdel : forall e, e ∈ map (fun f => EvFileDelete f (Ok tt)) done ->
                             exists f, e = EvFileDelete f (Ok tt)).
    { intros e He. apply list_elem_of_fmap in He as (f0 & -> & _). eauto. }
    intros [= <- <- <-] [= <-]. cbn [trace app]. split; [| split].
    + intros path Hin. apply elem_of_cons in Hin as [Hin | Hin]; [discriminate Hin |].
      apply elem_of_app in Hin as [Hin | Hin];
        [apply Hdel in Hin as [f0 Hin]; discriminate Hin |].
      apply list_elem_of_singleton in Hin. discriminate Hin.
    + intros line Hin. apply elem_of_cons in Hin as [Hin | Hin]; [discriminate Hin |].
      apply elem_of_app in Hin as [Hin | Hin];
        [apply Hdel in Hin as [f0 Hin]; discriminate Hin |].
      apply list_elem_of_singleton in Hin. discriminate Hin.
    + intros f0 ex' Hin. exists (done ++ f :: rest)%list, done, rest.
      apply elem_of_cons in Hin as [Hin | Hin]; [discriminate Hin |].
      apply elem_of_app in Hin as [Hin | Hin];
        [apply Hdel in Hin as [f1 Hin]; discriminate Hin |].
      apply list_elem_of_singleton in Hin. injection Hin as -> _. split; reflexivity.
Qed.

End Errors.

(** A written-out trace of a push that raised has no removal that went
    through, and no line but that of the attachment. *)
Ltac raised_trace :=
  let Hin := fresh "Hin" in
  split; [intros ? | intros ?]; intros Hin;
  repeat (apply elem_of_cons in Hin as [Hin | Hin];
          [first [discriminate Hin | injection Hin as ->; eauto] |]);
  now apply elem_of_nil in Hin.

Section PassErrors.

Context {W : Type} `{Host W}.

(** X16: in the "both" pass any failure of the download other than the
    no-annotation one ends the pass with that exception: the keys after it
    are not processed, and no attachment was changed for the key. *)
Theorem other_download_error_ends_the_pass (rmapi : string) (mdocuments : list Document)
    (rfiles keys : list string) (doc : string) (w w1 : W) (ex : exn) (evs : list event) :
  doc ∈ m_and_r (mfiles mdocuments) rfiles ->
  download_annotated rmapi doc w = Outcome (Raise ex) w1 evs ->
  PyStr.contains "Failed to generate annotations" (exn_str ex) = false ->
  sync_pass rmapi mdocuments (mfiles mdocuments) (doc :: keys) w = Outcome (Raise ex) w1 evs
  /\ Forall (fun e => touches_attachments e = false) evs.
Proof.
  intros Hin Hdl Hmsg. apply elem_of_m_and_r in Hin as [Hin _].
  destruct (sync_existing_run rmapi mdocuments doc w Hin) as (mdoc & _ & _ & Hrun).
  rewrite Hdl, Hmsg in Hrun. split.
  - unfold sync_pass. now rewrite for_each_cons, Hrun.
  - pose proof (download_annotated_trace rmapi doc w) as Hev. now rewrite Hdl in Hev.
Qed.

(** X17: when the push of a document raises, whatever the step, the
    script removes no local file and prints neither the progress line nor
    the warning: the only line it may have printed is the attachment. *)
Theorem push_attachment_failure (rmapi : string) (mdoc : Document) (doc : string) (w : W)
    (ex : exn) :
  res (push_attachment rmapi mdoc doc w) = Raise ex ->
  (forall path, EvOsRemove path (Ok tt) ∉ trace (push_attachment rmapi mdoc doc w))
  /\ (forall line,
        EvPrint line ∈ trace (push_attachment rmapi mdoc doc w) ->
        exists file_, line = str_file file_).
Proof.
  destruct (push_attachment rmapi mdoc doc w) as [r0 w0 t0] eqn:Hrun. revert Hrun.
  unfold push_attachment, first_attachment, no_path, falsy, RmApi_upload, RmApi_run,
    bind, call, print, raise, ret.
  destruct (files_iter mdoc w) as [w1 [[| file_ others] | ex0]];
    cbn -[String.append PyStr.join];
    [intros [= <- <- <-] [=] | | intros [= <- <- <-] [= <-]; raised_trace].
  destruct (file_download file_ "." w1) as [w2 [path | ex0]];
    cbn -[String.append PyStr.join]; [| intros [= <- <- <-] [=]; raised_trace].
  destruct (String.eqb path EmptyString); cbn -[String.append PyStr.join];
    [intros [= <- <- <-] [=] |].
  destruct (shutil_move _ _ w2) as [w3 [moved | ex0]]; cbn -[String.append PyStr.join];
    [| intros [= <- <- <-] [=]; raised_trace].
  destruct (popen _ w3) as [w4 [p | ex0]]; cbn -[String.append PyStr.join];
    [| intros [= <- <- <-] [=]; raised_trace].
  destruct (returncode p =? 0)%Z; cbn -[String.append PyStr.join];
    [| intros [= <- <- <-] [=]; raised_trace].
  destruct (os_remove _ w4) as [w5 [[] | ex0]]; cbn -[String.append PyStr.join];
    intros [= <- <- <-] [=]; raised_trace.
Qed.

End PassErrors.

(** ** The paginated listings of Mendeley *)

Lemma append_page_items {A} (item : PyDict.t string -> result A)
    (objects : list (PyDict.t string)) (acc : list A) :
  append_page item objects acc
  = match items_of item objects with
    | Ok xs => Ok (acc ++ xs)%list
    | Raise ex => Raise ex
    end.
Proof.
  revert acc. induction objects as [| f rest IH]; intros acc; cbn [append_page items_of].
  - now rewrite app_nil_r.
  - destruct (item f) as [x | ex]; [| reflexivity]. rewrite IH.
    destruct (items_of item rest) as [xs | ex]; [| reflexivity]. now rewrite <- app_assoc.
Qed.

Lemma items_of_app {A} (item : PyDict.t string -> result A) (a b : list (PyDict.t string))
    (xs : list A) :
  items_of item (a ++ b) = Ok xs ->
  exists xa xb, items_of item a = Ok xa /\ items_of item b = Ok xb /\ xs = (xa ++ xb)%list.
Proof.
  revert xs. induction a as [| f a IH]; intros xs; cbn [app items_of].
  - intros Hb. now exists [], xs.
  - destruct (item f) as [x | ex]; [| discriminate].
    destruct (items_of item (a ++ b)) as [ys | ex] eqn:Hab; [| discriminate].
    intros [= <-]. destruct (IH ys eq_refl) as (xa & xb & -> & Hb & ->).
    now exists (x :: xa), xb.
Qed.

Section Pagination.

Context {W : Type} `{Session W}.

Lemma serves_inv (url : string) (w : W) (pages : list Response) (w' : W) :
  serves url w pages w' ->
  exists w1 rsp rest,
    request "GET" url w = (w1, Ok rsp) /\ pages = rsp :: rest /\ rest_served rsp w1 rest w'.
Proof.
  unfold rest_served. intros [u v v1 rsp Hr Hn | u v v1 rsp next rest v' Hr Hn Hs].
  - exists v1, rsp, []. now rewrite Hn.
  - exists v1, rsp, rest. now rewrite Hn.
Qed.

Lemma read_pages_all {A} (item : PyDict.t string -> result A) (pages : list Response) :
  forall (fuel : nat) (rsp : Response) (acc xs : list A) (w w' : W),
    rest_served rsp w pages w' ->
    items_of item (objects_of (rsp :: pages)) = Ok xs ->
    length pages < fuel ->
    read_pages item fuel rsp acc w = Some (w', Ok (acc ++ xs)%list).
Proof.
  induction pages as [| page pages IH]; intros fuel rsp acc xs w w' Hrest Hitems Hfuel;
    (destruct fuel as [| fuel]; [cbn in Hfuel; lia |]);
    unfold objects_of in Hitems; cbn [map concat] in Hitems;
    apply items_of_app in Hitems as (xa & xb & Ha & Hb & ->);
    cbn [read_pages]; rewrite append_page_items, Ha; unfold rest_served in Hrest.
  - destruct (next_link rsp) as [next |].
    + apply serves_inv in Hrest as (? & ? & ? & _ & [=] & _).
    + destruct Hrest as [_ ->]. cbn in Hb. injection Hb as <-. now rewrite app_nil_r.
  - destruct (next_link rsp) as [next |]; [| now destruct Hrest].
    apply serves_inv in Hrest as (w1 & rsp' & rest & Hreq & [= -> ->] & Hrest).
    rewrite Hreq. rewrite (IH fuel rsp' (acc ++ xa)%list xb w1 w' Hrest Hb).
    + now rewrite <- app_assoc.
    + cbn [length] in Hfuel. lia.
Qed.

Lemma paginate_all {A} (item : PyDict.t string -> result A) (uri : string)
    (pages : list Response) (fuel : nat) (xs : list A) (w w' : W) :
  serves uri w pages w' ->
  items_of item (objects_of pages) = Ok xs ->
  length pages <= fuel ->
  paginate item fuel uri w = Some (w', Ok xs).
Proof.
  intros Hs Hitems Hfuel. apply serves_inv in Hs as (w1 & rsp & rest & Hreq & -> & Hrest).
  unfold paginate. rewrite Hreq.
  rewrite (read_pages_all item rest fuel rsp [] xs w1 w' Hrest Hitems); [reflexivity |].
  cbn [length] in Hfuel. lia.
Qed.

(** X18: when the server answers with finitely many pages, the last one
    without a next link, and every object has its fields, [get_folders]
    returns the folders of all the pages in the order received and
    [documents] fetches the documents of all the ids in that order; as many
    turns of the loop as there are pages are enough. *)
Theorem listings_read_every_page (self : Folder) (fuel : nat) (pages : list Response)
    (w w' : W) :
  length pages <= fuel ->
  (forall folders,
      serves (FOLDERS_REST_URI MENDELEY_PAGINATION_LIMIT) w pages w' ->
      items_of folder_of (objects_of pages) = Ok folders ->
      Folder_get_folders fuel w = Some (w', Ok folders))
  /\ (forall ids,
        serves (FOLDERS_DOCS_REST_URI (folder_id self) MENDELEY_PAGINATION_LIMIT) w pages w' ->
        items_of document_id_of (objects_of pages) = Ok ids ->
        Folder_documents fuel self w = Some (get_documents ids w')).
Proof.
  intros Hfuel. split.
  - intros folders Hs Hitems. unfold Folder_get_folders. cbv zeta.
    now apply (paginate_all folder_of _ pages).
  - intros ids Hs Hitems. unfold Folder_documents. cbv zeta.
    now rewrite (paginate_all document_id_of _ pages fuel ids w w').
Qed.



Lemma items_of_missing {A} (item : PyDict.t string -> result A)
    (objects : list (PyDict.t string)) (f : PyDict.t string) :
  f ∈ objects -> (exists ex, item f = Raise ex) ->
  exists g ex, g ∈ objects /\ item g = Raise ex /\ items_of item objects = Raise ex.
Proof.
  induction objects as [| g rest IH]; intros Hin Hbad; [inversion Hin |].
  cbn [items_of]. destruct (item g) as [x | ex] eqn:Hg.
  - apply elem_of_cons in Hin as [-> | Hin]; [destruct Hbad as [ex Hbad]; congruence |].
    destruct (IH Hin Hbad) as (g' & ex & Hin' & Hg' & ->).
    exists g', ex. split; [now apply list_elem_of_further | now split].
  - exists g, ex. split; [apply list_elem_of_here | now split].
Qed.

(** X20: an object without its ["id"] on the first page makes both
    listings raise a [KeyError] right after the first request, whatever
    the pages that would follow. *)
Theorem listings_raise_on_missing_id (self : Folder) (fuel : nat) (w w1 : W)
    (rsp : Response) (f : PyDict.t string) (uri : string) :
  request "GET" uri w = (w1, Ok rsp) ->
  f ∈ content rsp ->
  PyDict.get "id" f = None ->
  (uri = FOLDERS_REST_URI MENDELEY_PAGINATION_LIMIT ->
   exists ex, Folder_get_folders (S fuel) w = Some (w1, Raise ex)
              /\ (exn_str ex = "'id'" \/ exn_str ex = "'name'"))
  /\ (uri = FOLDERS_DOCS_REST_URI (folder_id self) MENDELEY_PAGINATION_LIMIT ->
      Folder_documents (S fuel) self w = Some (w1, Raise (Exception "'id'"))).
Proof.
  intros Hreq Hin Hid. split; intros ->.
  - destruct (items_of_missing folder_of (content rsp) f Hin) as (g & ex & _ & Hg & Hitems).
    { unfold folder_of, field. rewrite Hid. eauto. }
    exists ex. split.
    + unfold Folder_get_folders, paginate. cbv zeta. rewrite Hreq. cbn [read_pages].
      now rewrite append_page_items, Hitems.
    + revert Hg. unfold folder_of, field.
      destruct (PyDict.get "id" g); [| intros [= <-]; now left].
      destruct (PyDict.get "name" g); [discriminate | intros [= <-]; now right].
  - destruct (items_of_missing document_id_of (content rsp) f Hin) as (g & ex & _ & Hg & Hitems).
    { unfold document_id_of, field. rewrite Hid. eauto. }
    assert (ex = Exception "'id'") as ->.
    { revert Hg. unfold document_id_of, field.
      destruct (PyDict.get "id" g); [discriminate | now intros [= <-]]. }
    unfold Folder_documents, paginate. cbv zeta. rewrite Hreq. cbn [read_pages].
    now rewrite append_page_items, Hitems.
Qed.

End Pagination.

(** ** More scripted runs *)

Module MoreRuns.

Import Scripted Scenarios Paging.

Lemma canonicalize_injective_for_ids_of_one_length_witness :
  canonicalize "A." "1" = canonicalize "A" "1"
  /\ to_filename "A." false = to_filename "A" false.
Proof.
  split; [reflexivity |].
  apply (canonicalize_injective_for_ids_of_one_length "A." "A" "1" "1"); reflexivity.
Defined.

Lemma ids_of_docs_differ : NoDup (map doc_id docs).
Proof.
  apply NoDup_cons. split; [| apply NoDup_singleton].
  intros Hin. apply list_elem_of_singleton in Hin. discriminate Hin.
Defined.

Lemma ids_of_docs_one_length (m m' : Document) :
  m ∈ docs -> m' ∈ docs -> String.length (doc_id m) = String.length (doc_id m').
Proof.
  intros Hm Hm'.
  apply elem_of_cons in Hm as [-> | Hm]; [| apply list_elem_of_singleton in Hm as ->];
    (apply elem_of_cons in Hm' as [-> | Hm']; [| apply list_elem_of_singleton in Hm' as ->]);
    reflexivity.
Defined.

Lemma mfiles_keeps_every_document_of_distinct_ids_witness :
  NoDup (map doc_id docs) /\ PyDict.values (mfiles docs) = [0; 1].
Proof.
  split; [exact ids_of_docs_differ |].
  apply (mfiles_keeps_every_document_of_distinct_ids docs ids_of_docs_differ
           ids_of_docs_one_length).
Defined.

Lemma shown_plain (e : bool * string) : e ∈ shown -> plain_name (snd e).
Proof.
  intros He.
  apply elem_of_cons in He as [-> | He]; [| apply list_elem_of_singleton in He as ->];
    split; cbn; intros Hin;
    repeat (destruct Hin as [Hin | Hin]; [discriminate Hin |]); exact Hin.
Defined.

Lemma listing_is_read_back_witness :
  RmApi_subfolders (H := host listing) rmapi None 0
    = Outcome (Ok ["Mendeley"]) 0
        [EvPopen ["./rmapi"; "ls"] (Ok (finished (listing_text shown) EmptyString 0))]
  /\ res (RmApi_files (H := host listing) rmapi None 0) = Ok ["B---2"].
Proof.
  destruct (listing_is_read_back (H := host listing) rmapi None shown 0 0
              (finished (listing_text shown) EmptyString 0)
              shown_plain eq_refl eq_refl eq_refl) as [Hd Hf].
  split; [exact Hd | now rewrite Hf].
Defined.

Lemma listing_raises_on_bare_tag_witness :
  res (RmApi_subfolders (H := host bare_tag) rmapi None 0) = Raise IndexError
  /\ res (RmApi_files (H := host bare_tag) rmapi None 0) = Ok [].
Proof.
  split; [| reflexivity].
  destruct (listing_raises_on_bare_tag (H := host bare_tag) rmapi None 0 0
              (finished "[d]" EmptyString 0) "[d]" eq_refl eq_refl eq_refl) as [Hd _].
  apply Hd. split; [reflexivity | apply list_elem_of_here].
Defined.


Lemma main_runs_the_passes_in_order_witness :
  is_put (nth 20 steady_trace (EvPrint EmptyString)) = true
  /\ Forall (fun e => touches_attachments e = false) (skipn 21 steady_trace).
Proof.
  split; [reflexivity |].
  apply (main_runs_the_passes_in_order (H := host steady) 0 (firstn 20 steady_trace)
           (skipn 21 steady_trace) (nth 20 steady_trace (EvPrint EmptyString)));
    reflexivity.
Defined.

Lemma rmapi_failure_raises_witness :
  returncode (finished EmptyString "connection refused" 1) <> 0%Z
  /\ res (RmApi_upload (H := host offline) rmapi "A---1.pdf" "Mendeley" 0)
     = Raise (Exception
         "RmAPI ('./rmapi', 'put', 'A---1.pdf', 'Mendeley') command failed: b'connection refused'").
Proof.
  assert (Hne : returncode (finished EmptyString "connection refused" 1) <> 0%Z)
    by discriminate.
  split; [exact Hne |].
  destruct (rmapi_failure_raises (H := host offline) rmapi 0 0 _ Hne) as (_ & Hput & _).
  now rewrite (Hput "A---1.pdf" "Mendeley" eq_refl).
Defined.

Lemma replace_attachments_deletes_all_witness :
  res (replace_attachments (H := host steady) paper_b "a3f0.pdf" "B---2" 0) = Ok tt
  /\ trace (replace_attachments (H := host steady) paper_b "a3f0.pdf" "B---2" 0)
     = [EvFilesIter paper_b (Ok [ {| file_id := "2-main" |}; {| file_id := "2-extra" |} ]);
        EvFileDelete {| file_id := "2-main" |} (Ok tt);
        EvFileDelete {| file_id := "2-extra" |} (Ok tt);
        EvAttachFile paper_b "a3f0.pdf" (Ok tt);
        EvOsRemove "a3f0.pdf" (Ok tt);
        EvPrint "Document synced: B---2"].
Proof.
  split; [reflexivity |].
  destruct (replace_attachments_deletes_all (H := host steady) paper_b "a3f0.pdf" "B---2" 0 tt
              eq_refl) as [files E].
  reflexivity.
Defined.

Lemma replace_attachments_failure_witness :
  res (replace_attachments (H := host read_only_disk) paper_b "a3f0.pdf" "B---2" 0)
    = Raise (Exception "[Errno 13] Permission denied")
  /\ EvOsRemove "a3f0.pdf" (Ok tt)
     ∉ trace (replace_attachments (H := host read_only_disk) paper_b "a3f0.pdf" "B---2" 0).
Proof.
  split; [reflexivity |].
  apply (replace_attachments_failure (H := host read_only_disk) paper_b "a3f0.pdf" "B---2" 0
           (Exception "[Errno 13] Permission denied") eq_refl).
Defined.

Lemma other_download_error_ends_the_pass_witness :
  "B---2" ∈ m_and_r (mfiles docs) on_tablet
  /\ res (sync_pass (H := host offline) rmapi docs (mfiles docs) ["B---2"; "A---1"] 0)
     = Raise (Exception
         "RmAPI ('./rmapi', 'geta', '-a', 'Mendeley/B---2') command failed: b'connection refused'").
Proof.
  assert (Hin : "B---2" ∈ m_and_r (mfiles docs) on_tablet)
    by (vm_compute; apply list_elem_of_here).
  split; [exact Hin |].
  edestruct (other_download_error_ends_the_pass (H := host offline) rmapi docs on_tablet
               ["A---1"] "B---2" 0) as [E _]; [exact Hin | reflexivity | reflexivity |].
  now rewrite E.
Defined.

Lemma push_attachment_failure_witness :
  res (push_attachment (H := host offline) rmapi paper_a "A---1" 0)
    = Raise (Exception
        "RmAPI ('./rmapi', 'put', 'A---1.pdf', 'Mendeley') command failed: b'connection refused'")
  /\ EvOsRemove "A---1.pdf" (Ok tt)
     ∉ trace (push_attachment (H := host offline) rmapi paper_a "A---1" 0).
Proof.
  split; [reflexivity |].
  apply (push_attachment_failure (H := host offline) rmapi paper_a "A---1" 0 _ eq_refl).
Defined.

Lemma two_pages_served :
  serves (H := two_pages) (FOLDERS_REST_URI MENDELEY_PAGINATION_LIMIT) tt [page1; page2] tt.
Proof.
  eapply serves_more; [reflexivity | reflexivity |]. now apply serves_last.
Defined.

Lemma listings_read_every_page_witness :
  length [page1; page2] <= 2
  /\ Folder_get_folders (H := two_pages) 2 tt
     = Some (tt, Ok [ {| folder_id := "f1"; folder_name := "Remarkable"; folder_parent := None |};
                      {| folder_id := "f2"; folder_name := "Sub"; folder_parent := Some "f1" |};
                      {| folder_id := "f3"; folder_name := "Inbox"; folder_parent := None |} ]).
Proof.
  assert (Hfuel : length [page1; page2] <= 2) by (cbn; lia).
  split; [exact Hfuel |].
  destruct (listings_read_every_page (H := two_pages)
              {| folder_id := "f1"; folder_name := "Remarkable"; folder_parent := None |}
              2 [page1; page2] tt tt Hfuel) as [Hfolders _].
  apply Hfolders; [exact two_pages_served | reflexivity].
Defined.



Lemma listings_raise_on_missing_id_witness :
  PyDict.get "id" [("name", "B")] = None
  /\ exists ex, Folder_get_folders (H := one_bad_page) 1 tt = Some (tt, Raise ex).
Proof.
  split; [reflexivity |].
  destruct (listings_raise_on_missing_id (H := one_bad_page)
              {| folder_id := "f1"; folder_name := "Remarkable"; folder_parent := None |}
              0 tt tt {| content := [obj "f1" "A"; [("name", "B")]];
                         next_link := Some (FOLDERS_REST_URI MENDELEY_PAGINATION_LIMIT) |}
              [("name", "B")] (FOLDERS_REST_URI MENDELEY_PAGINATION_LIMIT)
              eq_refl (list_elem_of_further _ _ _ (list_elem_of_here _ _)) eq_refl)
    as [Hfolders _].
  destruct (Hfolders eq_refl) as (ex & E & _). now exists ex.
Defined.

Lemma main_lists_then_passes_witness :
  (listings_answered (H := host steady) 0 (folders steady)
     {| folder_id := "f1"; folder_name := "Remarkable"; folder_parent := None |}
     docs on_tablet
     (Ok (process steady ["./rmapi"; "ls"]))
     (Ok (process steady ["./rmapi"; "ls"; "Mendeley"])) 0
   /\ main (H := host steady) 0
      = after [EvGetSession (Ok tt); EvGetFolders (Ok (folders steady));
               EvDocuments
                 {| folder_id := "f1"; folder_name := "Remarkable"; folder_parent := None |}
                 (Ok docs);
               EvPopen ["./rmapi"; "ls"] (Ok (process steady ["./rmapi"; "ls"]));
               EvPopen ["./rmapi"; "ls"; "Mendeley"]
                 (Ok (process steady ["./rmapi"; "ls"; "Mendeley"]))]
          (passes (H := host steady) RmApi_default docs on_tablet 0))
  /\ (listing_failed (H := host no_source_folder) 0
        (Exception "Cannot find remarkable folder in mendeley!")
      /\ res (main (H := host no_source_folder) 0)
         = Raise (Exception "Cannot find remarkable folder in mendeley!")
      /\ Forall (fun e => read_only e = true) (trace (main (H := host no_source_folder) 0))).
Proof.
  split.
  - assert (listings_answered (H := host steady) 0 (folders steady)
              {| folder_id := "f1"; folder_name := "Remarkable"; folder_parent := None |}
              docs on_tablet
              (Ok (process steady ["./rmapi"; "ls"]))
              (Ok (process steady ["./rmapi"; "ls"; "Mendeley"])) 0) as Hanswered.
    { exists 0, 0, 0, 0, ["Mendeley"]. repeat split. }
    split; [exact Hanswered |].
    exact (proj1 (main_lists_then_passes (H := host steady) 0) _ _ _ _ _ _ _ Hanswered).
  - assert (listing_failed (H := host no_source_folder) 0
              (Exception "Cannot find remarkable folder in mendeley!")) as Hfailed.
    { right. right. left. split; [| reflexivity].
      exists 0, 0, (folders no_source_folder). repeat split. }
    split; [exact Hfailed |].
    exact (proj2 (main_lists_then_passes (H := host no_source_folder) 0) _ Hfailed).
Defined.

End MoreRuns.
